(** * ShopSmartBot: the navigation handlers and the caption renderer of
    [src/main.py], embedded as Rocq functions, and the properties the
    specification states about them.

    Conventions of the embedding.
    - A Python [str] is a Rocq [string] holding its UTF-8 bytes.  Every
      pattern the program searches for is either one ASCII character or a
      valid UTF-8 literal, so searching and replacing on the bytes agrees with
      searching and replacing on the code points.
    - A decoded JSON document is a value of [json]; a Python exception is a
      value of [exn]; a function that may raise returns a [result].
    - The handlers run in a monad that reads an environment (the file system,
      the clock, the outcome of every send) and threads the outbox and the log.
    - What the program takes from its libraries and this development does not
      define (floating-point numbers, [repr] of containers, aiogram's
      [CommandStart] filter) is gathered in the class [PyRuntime]. *)

From Stdlib Require Import String Ascii List ZArith Lia Bool Arith DecimalString.
Import ListNotations.
Local Open Scope string_scope.

Set Implicit Arguments.

(** ** Python strings *)

Module PyStr.

(** The line feed, written [\n] in the source. *)
Definition LF : string := String "010"%char EmptyString.

(** The escape marker of MarkdownV2, written ['\\'] in the source. *)
Definition backslash : ascii := "\"%char.

(** Bytes [10xxxxxx] continue a code point; every other byte starts one. *)
Definition is_continuation (c : ascii) : bool :=
  let n := nat_of_ascii c in ((128 <=? n)%nat && (n <? 192)%nat)%bool.

(** [len(s)] counts code points. *)
Fixpoint len (s : string) : nat :=
  match s with
  | EmptyString => 0
  | String c s' => (if is_continuation c then 0 else 1) + len s'
  end.

(** [str(n)] for an [int]. *)
Definition str_int (z : Z) : string := NilZero.string_of_int (Z.to_int z).

(** [needle in hay]. *)
Fixpoint contains (needle hay : string) : bool :=
  prefix needle hay ||
  match hay with
  | EmptyString => false
  | String _ hay' => contains needle hay'
  end.

(** [s.replace(old, new)] for a pattern [old] that is not empty: the text is
    read from the left, an occurrence of [old] is replaced by [new] and the
    reading resumes after it ([skip] counts the characters of the occurrence
    still to pass over). *)
Fixpoint replace_from (old new : string) (skip : nat) (s : string) : string :=
  match s with
  | EmptyString => EmptyString
  | String c s' =>
      match skip with
      | S k => replace_from old new k s'
      | O =>
          if prefix old s
          then new ++ replace_from old new (String.length old - 1) s'
          else String c (replace_from old new 0 s')
      end
  end.

(** With an empty pattern Python puts [new] before every code point and at the
    end. *)
Fixpoint insert_around (new s : string) : string :=
  match s with
  | EmptyString => new
  | String c s' =>
      (if is_continuation c then EmptyString else new)
        ++ String c (insert_around new s')
  end.

Definition replace (old new s : string) : string :=
  match old with
  | EmptyString => insert_around new s
  | String _ _ => replace_from old new 0 s
  end.

(** The text obtained by putting [f c] in the place of every character [c]. *)
Fixpoint expand (f : ascii -> string) (s : string) : string :=
  match s with
  | EmptyString => EmptyString
  | String c s' => f c ++ expand f s'
  end.

(** Number of characters of [s] that satisfy [p]. *)
Fixpoint count (p : ascii -> bool) (s : string) : nat :=
  match s with
  | EmptyString => 0
  | String c s' => (if p c then 1 else 0) + count p s'
  end.

Fixpoint all_chars (p : ascii -> bool) (s : string) : bool :=
  match s with
  | EmptyString => true
  | String c s' => p c && all_chars p s'
  end.

End PyStr.

(** ** [escape_markdown_v2] (src/main.py, lines 93-98) *)

Definition reserved_chars : string := "_*[]()~`>#+-=|{}.!/".

(** [for char in reserved_chars: text = text.replace(char, f'\\{char}')] *)
Definition escape_markdown_v2 (text : string) : string :=
  fold_left
    (fun text char =>
       PyStr.replace (String char EmptyString)
                     (String PyStr.backslash (String char EmptyString)) text)
    (list_ascii_of_string reserved_chars) text.

(** ** Values decoded by [json.load], exceptions, and the runtime *)

Inductive number (F : Type) : Type :=
| Int (z : Z)
| Float (f : F).

#[local] Unset Elimination Schemes.

Inductive json (F : Type) : Type :=
| JNull
| JBool (b : bool)
| JNum (n : number F)
| JStr (s : string)
| JList (l : list (json F))
| JDict (d : list (string * json F)).

#[local] Set Elimination Schemes.

Arguments Int {F} z.
Arguments Float {F} f.
Arguments JNull {F}.
Arguments JBool {F} b.
Arguments JNum {F} n.
Arguments JStr {F} s.
Arguments JList {F} l.
Arguments JDict {F} d.

(** What the program uses and its libraries define.  [pyfloat] is Python's
    [float] with its [str], its comparison with [0], its subtraction and the
    conversion from [int] (which overflows on large integers);
    [container_repr] is [repr] on a [list] or a [dict]; [CommandStart] is
    aiogram's filter of that name, applied to the text of a message. *)
Class PyRuntime : Type := {
  pyfloat : Type;
  float_str : pyfloat -> string;
  float_gt0 : pyfloat -> bool;
  float_sub : pyfloat -> pyfloat -> pyfloat;
  float_of_int : Z -> option pyfloat;
  container_repr : json pyfloat -> string;
  CommandStart : string -> bool
}.

(** A decoded value, and a decoded object: its entries in the order of the
    document. *)
Abbreviation value := (json pyfloat).
Abbreviation dict := (list (string * json pyfloat)).

(** The exceptions the program can meet, each with the text [str(e)] gives. *)
Inductive exn : Type :=
| FileNotFoundError (msg : string)
| OSError (msg : string)
| UnicodeDecodeError (msg : string)
| JSONDecodeError (msg : string)
| ValueError (msg : string)
| TypeError (msg : string)
| AttributeError (msg : string)
| KeyError (msg : string)
| OverflowError (msg : string)
| TelegramAPIError (msg : string).

Definition exn_str (e : exn) : string :=
  match e with
  | FileNotFoundError m | OSError m | UnicodeDecodeError m | JSONDecodeError m
  | ValueError m | TypeError m | AttributeError m | KeyError m
  | OverflowError m | TelegramAPIError m => m
  end.

(** [isinstance(e, FileNotFoundError)] *)
Definition is_FileNotFoundError (e : exn) : bool :=
  match e with FileNotFoundError _ => true | _ => false end.

(** [isinstance(e, ValueError)]: the two decoding errors are subclasses. *)
Definition is_ValueError (e : exn) : bool :=
  match e with
  | ValueError _ | JSONDecodeError _ | UnicodeDecodeError _ => true
  | _ => false
  end.

(** [isinstance(e, json.JSONDecodeError)] *)
Definition is_JSONDecodeError (e : exn) : bool :=
  match e with JSONDecodeError _ => true | _ => false end.

Inductive result (A : Type) : Type :=
| Ok (a : A)
| Raise (e : exn).

Arguments Ok {A} a.
Arguments Raise {A} e.

Definition rbind {A B} (r : result A) (k : A -> result B) : result B :=
  match r with
  | Ok a => k a
  | Raise e => Raise e
  end.

Notation "'let?' x ':=' r 'in' k" := (rbind r (fun x => k))
  (at level 10, x name, r at level 100, k at level 200).

(** ** Outbound messages *)

Inductive parse_mode : Type := Markdown | MarkdownV2.

Record reply_keyboard : Type := {
  keyboard : list (list string);
  resize_keyboard : bool;
  one_time_keyboard : option bool;
  input_field_placeholder : option string
}.

Inductive level : Type := INFO | WARNING | ERROR.

Section Bot.

Context {RT : PyRuntime}.

Inductive markup : Type :=
| ReplyKeyboardMarkup (k : reply_keyboard)
| ReplyKeyboardRemove
| InlineKeyboardMarkup (inline_keyboard : list (list (string * value))).

(** One call of [message.answer] or [message.answer_photo]: the photo (the
    path given to [FSInputFile]) when there is one, the text or caption, the
    keyboard and the parse mode. *)
Record outbound : Type := {
  photo : option string;
  body : string;
  reply_markup : option markup;
  mode : option parse_mode
}.

(** ** The world a handler runs in *)

(** What reading [data/products.json] gives. *)
Inductive source : Type :=
| Missing
| Unreadable (msg : string)
| NotUTF8 (msg : string)
| NotJSON (msg : string)
| Decoded (j : value).

(** [delivery k] is the failure, if any, of the send number [k] of the event
    (counted from 0). *)
Record env : Type := {
  products_json : source;
  path_exists : string -> bool;
  hour : nat;
  delivery : nat -> option string
}.

(** The sends attempted so far, oldest first, each with whether it went
    through, and the log records. *)
Record state : Type := {
  outbox : list (outbound * bool);
  logs : list (level * string)
}.

Definition initial : state := {| outbox := []; logs := [] |}.

Definition M (A : Type) : Type := env -> state -> result A * state.

Definition ret {A} (a : A) : M A := fun _ s => (Ok a, s).

Definition bind {A B} (m : M A) (k : A -> M B) : M B :=
  fun e s =>
    match m e s with
    | (Ok a, s') => k a e s'
    | (Raise x, s') => (Raise x, s')
    end.

Definition raise {A} (x : exn) : M A := fun _ s => (Raise x, s).

Definition lift {A} (r : result A) : M A := fun _ s => (r, s).

Definition ask : M env := fun e s => (Ok e, s).

(** Runs [m] and hands over how it ended ([try: ... except ...] is written
    with it). *)
Definition attempt {A} (m : M A) : M (result A) :=
  fun e s => let (r, s') := m e s in (Ok r, s').

(** The state after one more log record, and after one more send. *)
Definition logged (s : state) (l : level) (msg : string) : state :=
  {| outbox := outbox s; logs := (logs s ++ [(l, msg)])%list |}.

Definition sent (s : state) (m : outbound) (ok : bool) : state :=
  {| outbox := (outbox s ++ [(m, ok)])%list; logs := logs s |}.

Definition logger (l : level) (msg : string) : M unit :=
  fun _ s => (Ok tt, logged s l msg).

(** A send: recorded in the outbox, and raising when the transport fails. *)
Definition send (m : outbound) : M unit :=
  fun e s =>
    match delivery e (List.length (outbox s)) with
    | None => (Ok tt, sent s m true)
    | Some err => (Raise (TelegramAPIError err), sent s m false)
    end.

End Bot.

Notation "x <- m ;; k" := (bind m (fun x => k))
  (at level 61, m at next level, right associativity).
Notation "m ;; k" := (bind m (fun _ => k))
  (at level 61, right associativity).

Section Handlers.

Context {RT : PyRuntime}.

(** ** Python operations on decoded values *)

(** [type(v).__name__] *)
Definition type_name (v : value) : string :=
  match v with
  | JNull => "NoneType"
  | JBool _ => "bool"
  | JNum (Int _) => "int"
  | JNum (Float _) => "float"
  | JStr _ => "str"
  | JList _ => "list"
  | JDict _ => "dict"
  end.

(** [str(v)], as an f-string applies it. *)
Definition py_str (v : value) : string :=
  match v with
  | JNull => "None"
  | JBool true => "True"
  | JBool false => "False"
  | JNum (Int z) => PyStr.str_int z
  | JNum (Float f) => float_str f
  | JStr s => s
  | JList _ | JDict _ => container_repr v
  end.

(** The numeric view of a value: a [bool] is an [int]. *)
Definition as_number (v : value) : option (number pyfloat) :=
  match v with
  | JNum n => Some n
  | JBool b => Some (Int (if b then 1 else 0)%Z)
  | _ => None
  end.

(** [v > 0] *)
Definition py_gt0 (v : value) : result bool :=
  match as_number v with
  | Some (Int z) => Ok (0 <? z)%Z
  | Some (Float f) => Ok (float_gt0 f)
  | None =>
      Raise (TypeError ("'>' not supported between instances of '"
                          ++ type_name v ++ "' and 'int'"))
  end.

Definition to_float (n : number pyfloat) : result pyfloat :=
  match n with
  | Float f => Ok f
  | Int z =>
      match float_of_int z with
      | Some f => Ok f
      | None => Raise (OverflowError "int too large to convert to float")
      end
  end.

(** [a - b] *)
Definition py_sub (a b : value) : result value :=
  match as_number a, as_number b with
  | Some (Int x), Some (Int y) => Ok (JNum (Int (x - y)%Z))
  | Some x, Some y =>
      let? fx := to_float x in
      let? fy := to_float y in
      Ok (JNum (Float (float_sub fx fy)))
  | _, _ =>
      Raise (TypeError ("unsupported operand type(s) for -: '"
                          ++ type_name a ++ "' and '" ++ type_name b ++ "'"))
  end.

(** [len(v)] *)
Definition py_len (v : value) : result nat :=
  match v with
  | JList l => Ok (List.length l)
  | JDict d => Ok (List.length d)
  | JStr s => Ok (PyStr.len s)
  | _ => Raise (TypeError ("object of type '" ++ type_name v ++ "' has no len()"))
  end.

(** The code points of a string, each as a string of its own. *)
Fixpoint code_points (s : string) : list string :=
  match s with
  | EmptyString => []
  | String c s' =>
      match code_points s' with
      | String d r :: rest =>
          if PyStr.is_continuation d
          then String c (String d r) :: rest
          else String c EmptyString :: String d r :: rest
      | rest => String c EmptyString :: rest
      end
  end.

(** What [for p in v] goes through. *)
Definition py_iter (v : value) : result (list value) :=
  match v with
  | JList l => Ok l
  | JDict d => Ok (map (fun kv => JStr (fst kv)) d)
  | JStr s => Ok (map JStr (code_points s))
  | _ => Raise (TypeError ("'" ++ type_name v ++ "' object is not iterable"))
  end.

(** Lookup of a key in a [dict] (a decoded object holds a key once). *)
Fixpoint lookup (key : string) (d : dict) : option value :=
  match d with
  | [] => None
  | (k, v) :: d' => if String.eqb k key then Some v else lookup key d'
  end.

(** [d[key]] *)
Definition getitem (d : dict) (key : string) : result value :=
  match lookup key d with
  | Some v => Ok v
  | None => Raise (KeyError ("'" ++ key ++ "'"))
  end.

(** [d.get(key, default)] *)
Definition get (d : dict) (key : string) (default : value) : value :=
  match lookup key d with
  | Some v => v
  | None => default
  end.

(** The receiver of [p.get(...)]: only a [dict] has the method. *)
Definition as_dict (p : value) : result dict :=
  match p with
  | JDict d => Ok d
  | _ => Raise (AttributeError ("'" ++ type_name p ++ "' object has no attribute 'get'"))
  end.

(** [v == s] for a string [s]. *)
Definition eq_str (v : value) (s : string) : bool :=
  match v with
  | JStr t => String.eqb t s
  | _ => false
  end.

(** ** The tables (src/main.py, lines 57-69); a [dict] literal keeps the order
    of its entries. *)

Definition PLATFORM_MAP : list (string * string) :=
  [ ("express", "⚡ علي إكس براس");
    ("trendyol", "🛍️ تريندويل");
    ("amazon", "🚀 أمازون") ].

Definition CATEGORY_MAP : list (string * string) :=
  [ ("groceries", "🛒 مواد غذائية");
    ("beauty", "💄 الجمال");
    ("mobiles", "📱 الجوالات");
    ("home_appliances", "🏠 الأجهزة المنزلية") ].

Definition values (m : list (string * string)) : list string := map snd m.

Definition BACK_LABEL : string := "↩️ رجوع إلى المنصات".
Definition AMAZON_LABEL : string := "🚀 أمازون".
Definition SHOW_MORE_LABEL : string := "🛒 عرض المزيد".
Definition OTHER_PLATFORM_LABELS : list string :=
  [ "⚡ علي إكس براس"; "🛍️ تريندويل" ].

(** ** The catalog (lines 40-54 and 81-83) *)

(** [json.load] on the opened file. *)
Definition json_load : M value :=
  e <- ask ;;
  match products_json e with
  | Missing => raise (FileNotFoundError "[Errno 2] No such file or directory: 'data/products.json'")
  | Unreadable m => raise (OSError m)
  | NotUTF8 m => raise (UnicodeDecodeError m)
  | NotJSON m => raise (JSONDecodeError m)
  | Decoded j => ret j
  end.

Definition load_products : M value :=
  e <- ask ;;
  match products_json e with
  | Missing =>
      logger ERROR "products.json not found in data/ folder" ;;
      raise (FileNotFoundError "data/products.json missing")
  | _ =>
      r <- attempt
             (products <- json_load ;;
              n <- lift (py_len products) ;;
              logger INFO ("Loaded " ++ PyStr.str_int (Z.of_nat n) ++ " products from JSON") ;;
              ret products) ;;
      match r with
      | Ok products => ret products
      | Raise x =>
          if is_JSONDecodeError x
          then logger ERROR ("Invalid JSON in products.json: " ++ exn_str x) ;;
               raise (ValueError "Invalid JSON format in products.json")
          else raise x
      end
  end.

(** The comprehension [[p for p in products if p.get("category") == category]]. *)
Fixpoint matching (category : string) (ps : list value) : result (list dict) :=
  match ps with
  | [] => Ok []
  | p :: rest =>
      let? d := as_dict p in
      let keep := eq_str (get d "category" JNull) category in
      let? tl := matching category rest in
      Ok (if keep then d :: tl else tl)
  end.

Definition get_products_by_category (products : value) (category : string)
  : result (list dict) :=
  let? ps := py_iter products in
  let? selected := matching category ps in
  Ok (firstn 3 selected).

(** ** The caption (lines 256-279) *)

Definition CURRENCY : string := " ريال".

(** [escape_markdown_v2] called on a value: the first [text.replace] needs a
    [str]. *)
Definition escape_value (v : value) : result string :=
  match v with
  | JStr s => Ok (escape_markdown_v2 s)
  | _ => Raise (AttributeError ("'" ++ type_name v ++ "' object has no attribute 'replace'"))
  end.

Definition _build_caption (product : dict) (idx : Z) : result string :=
  let? title := getitem product "title" in
  let old_price := get product "old_price" (JNum (Int 0)) in
  let? new_price := getitem product "new_price" in
  let? discounted := py_gt0 old_price in
  let? savings :=
    (if discounted then py_sub old_price new_price else Ok (JNum (Int 0))) in
  let? escaped_title := escape_value title in
  let escaped_old_price := escape_markdown_v2 (py_str old_price ++ CURRENCY) in
  let escaped_new_price := escape_markdown_v2 (py_str new_price ++ CURRENCY) in
  let escaped_savings := escape_markdown_v2 (py_str savings ++ CURRENCY) in
  let caption :=
    "*🏷️ المنتج " ++ PyStr.str_int idx ++ ": " ++ escaped_title ++ "*"
      ++ PyStr.LF ++ PyStr.LF in
  let? discounted' := py_gt0 old_price in
  if discounted'
  then
    Ok (caption
          ++ ("💵 *السعر:*" ++ PyStr.LF ++ "~~" ++ escaped_old_price ++ "~~ ➡️ *"
                ++ escaped_new_price ++ "*" ++ PyStr.LF)
          ++ ("💰 *وفرت: " ++ escaped_savings ++ "* 🎉"))
  else
    Ok (caption ++ ("💵 *السعر: " ++ escaped_new_price ++ "*")).

(** The plain caption of the fallback (line 253). *)
Definition plain_caption (caption : string) : string :=
  PyStr.replace "➡️" "->"
    (PyStr.replace "~~" ""
       (PyStr.replace "\*" "*" caption)).

(** ** Keyboards *)

(** [builder.adjust(n)]: rows of [n] buttons, the last one shorter if need
    be. *)
Fixpoint rows_of (fuel n : nat) (buttons : list string) : list (list string) :=
  match fuel with
  | O => []
  | S fuel' =>
      match buttons with
      | [] => []
      | _ => firstn n buttons :: rows_of fuel' n (skipn n buttons)
      end
  end.

Definition adjust (n : nat) (buttons : list string) : list (list string) :=
  rows_of (List.length buttons) n buttons.

Definition _build_product_keyboard (detail_url : value) : markup :=
  InlineKeyboardMarkup [[("🛒 اشترِ الآن", detail_url)]].

(** ** The handlers (lines 101-311) *)

(** [message.answer(text, reply_markup=..., parse_mode=...)] *)
Definition answer (text : string) (kb : option markup) (pm : option parse_mode)
  : M unit :=
  send {| photo := None; body := text; reply_markup := kb; mode := pm |}.

(** [message.answer_photo(photo=..., caption=..., reply_markup=..., parse_mode=...)] *)
Definition answer_photo (ph caption : string) (kb : option markup)
  (pm : option parse_mode) : M unit :=
  send {| photo := Some ph; body := caption; reply_markup := kb; mode := pm |}.

Definition get_greeting : M string :=
  e <- ask ;;
  if ((5 <=? hour e)%nat && (hour e <? 12)%nat)%bool then ret "صباح الخير! 🌅"
  else if ((12 <=? hour e)%nat && (hour e <? 18)%nat)%bool then ret "مساء الخير! ☀️"
  else ret "مساء الخير! 🌙".

Definition PLACEHOLDER_PATH : string := "assets/placeholder.jpg".

(** [None] when the placeholder image is not on disk. *)
Definition get_placeholder_image : M (option string) :=
  e <- ask ;;
  if path_exists e PLACEHOLDER_PATH then ret (Some PLACEHOLDER_PATH)
  else logger WARNING "Placeholder image not found; using text fallback" ;;
       ret None.

Definition start_handler : M unit :=
  greeting <- get_greeting ;;
  let welcome_text :=
    greeting ++ PyStr.LF ++ PyStr.LF
      ++ "🎉 **مرحباً بك في متجرنا الإلكتروني!** 🌟" ++ PyStr.LF ++ PyStr.LF
      ++ "✨ *اختر المنصة التي تريد استعراض عروضها:*" in
  let kb :=
    ReplyKeyboardMarkup
      {| keyboard := adjust 1 (values PLATFORM_MAP);
         resize_keyboard := true;
         one_time_keyboard := Some false;
         input_field_placeholder := Some "👉 اختر منصة..." |} in
  answer welcome_text (Some kb) (Some Markdown).

Definition amazon_handler : M unit :=
  let welcome_text :=
    "🚀 **مرحباً بك في أمازون!**" ++ PyStr.LF ++ PyStr.LF
      ++ "🛍️ *اختر القسم الذي يهمك لعرض العروض الحصرية:*" in
  let kb :=
    ReplyKeyboardMarkup
      {| keyboard := adjust 2 (values CATEGORY_MAP ++ [BACK_LABEL])%list;
         resize_keyboard := true;
         one_time_keyboard := Some false;
         input_field_placeholder := Some "🎯 اختر القسم..." |} in
  answer welcome_text (Some kb) (Some Markdown).

Definition back_to_platforms_handler : M unit := start_handler.

Definition show_more_handler : M unit := amazon_handler.

(** [Path(v)] *)
Definition path_of (v : value) : result string :=
  match v with
  | JStr s => Ok s
  | _ => Raise (TypeError ("expected str, bytes or os.PathLike object, not "
                             ++ type_name v))
  end.

Definition send_product_message (product : dict) (idx : Z) : M unit :=
  image_path <- lift (path_of (get product "image" (JStr ""))) ;;
  e <- ask ;;
  ph <- (if path_exists e image_path then ret (Some image_path)
         else get_placeholder_image) ;;
  caption <- lift (_build_caption product idx) ;;
  detail_url <- lift (getitem product "detail_url") ;;
  let kb := _build_product_keyboard detail_url in
  r <- attempt
         match ph with
         | Some file => answer_photo file caption (Some kb) (Some MarkdownV2)
         | None => answer caption (Some kb) (Some MarkdownV2)
         end ;;
  match r with
  | Ok _ => ret tt
  | Raise x =>
      id <- lift (getitem product "id") ;;
      logger ERROR ("Failed to send product " ++ py_str id ++ ": " ++ exn_str x) ;;
      answer (plain_caption caption) (Some kb) None
  end.

(** [for idx, product in enumerate(cat_products, 1)] with [idx] the number of
    the first product of the list. *)
Fixpoint send_each (idx : Z) (products : list dict) : M unit :=
  match products with
  | [] => ret tt
  | product :: rest =>
      send_product_message product idx ;;
      send_each (idx + 1) rest
  end.

(** [next((k for k, v in CATEGORY_MAP.items() if v == text), None)] *)
Definition selected_category (text : string) : option string :=
  option_map fst (find (fun kv => String.eqb (snd kv) text) CATEGORY_MAP).

(** [not s] for a string or [None]. *)
Definition falsy (s : option string) : bool :=
  match s with
  | None => true
  | Some EmptyString => true
  | Some _ => false
  end.

Definition TEMPORARY_ERROR : outbound :=
  {| photo := None;
     body := "⚠️ **عذراً، حدث خطأ مؤقت**" ++ PyStr.LF ++ "الرجاء المحاولة لاحقًا.";
     reply_markup := None;
     mode := Some Markdown |}.

Definition UNKNOWN_CATEGORY : outbound :=
  {| photo := None;
     body := "❌ قسم غير معروف. استخدم /start للبدء.";
     reply_markup := None;
     mode := None |}.

Definition EMPTY_CATEGORY : outbound :=
  {| photo := None;
     body := "📦 **لا توجد منتجات في هذا القسم حالياً**" ++ PyStr.LF ++ PyStr.LF
               ++ "✨ جاري تحديث العروض قريباً!";
     reply_markup :=
       Some (ReplyKeyboardMarkup
               {| keyboard := [[BACK_LABEL]];
                  resize_keyboard := true;
                  one_time_keyboard := None;
                  input_field_placeholder := None |});
     mode := Some Markdown |}.

Definition LOADING (text : string) : outbound :=
  {| photo := None;
     body := "🔄 **جاري تحميل المنتجات في " ++ text ++ "...**";
     reply_markup := Some ReplyKeyboardRemove;
     mode := Some Markdown |}.

Definition END_OF_LIST : outbound :=
  {| photo := None;
     body := "🎊 **تم عرض جميع المنتجات**" ++ PyStr.LF ++ PyStr.LF
               ++ "💫 *اختر قسم آخر أو عد إلى القائمة الرئيسية*";
     reply_markup :=
       Some (ReplyKeyboardMarkup
               {| keyboard := [[SHOW_MORE_LABEL; BACK_LABEL]];
                  resize_keyboard := true;
                  one_time_keyboard := None;
                  input_field_placeholder := None |});
     mode := Some Markdown |}.

Definition category_handler (text : string) : M unit :=
  r <- attempt load_products ;;
  match r with
  | Raise x =>
      if (is_FileNotFoundError x || is_ValueError x)%bool
      then logger ERROR ("Data load error: " ++ exn_str x) ;;
           send TEMPORARY_ERROR
      else raise x
  | Ok products =>
      let selected := selected_category text in
      if falsy selected then send UNKNOWN_CATEGORY
      else
        cat_products <-
          lift (get_products_by_category products
                  (match selected with Some k => k | None => EmptyString end)) ;;
        match cat_products with
        | [] => send EMPTY_CATEGORY
        | _ =>
            send (LOADING text) ;;
            send_each 1 cat_products ;;
            send END_OF_LIST
        end
  end.

Definition other_platforms_handler (text : string) : M unit :=
  let coming_soon_text :=
    text ++ PyStr.LF ++ PyStr.LF
      ++ "🚧 **جاري التطوير**" ++ PyStr.LF ++ PyStr.LF
      ++ "⚡ *هذه المنصة قيد التطوير حالياً*" ++ PyStr.LF
      ++ "✨ ستكون متاحة قريباً بإذن الله" ++ PyStr.LF ++ PyStr.LF
      ++ "💎 *يمكنك تجربة منصة أمازون الآن!*" in
  let kb :=
    ReplyKeyboardMarkup
      {| keyboard := [[AMAZON_LABEL]; [BACK_LABEL]];
         resize_keyboard := true;
         one_time_keyboard := None;
         input_field_placeholder := None |} in
  answer coming_soon_text (Some kb) (Some Markdown).

(** ** The router: the handlers in the order they are registered; the first
    whose filter accepts the text runs, and a text no filter accepts is left
    unhandled ([false]). *)
Definition router (text : string) : M bool :=
  if CommandStart text then start_handler ;; ret true
  else if String.eqb text AMAZON_LABEL then amazon_handler ;; ret true
  else if String.eqb text BACK_LABEL then back_to_platforms_handler ;; ret true
  else if existsb (String.eqb text) (values CATEGORY_MAP)
       then category_handler text ;; ret true
  else if String.eqb text SHOW_MORE_LABEL then show_more_handler ;; ret true
  else if existsb (String.eqb text) OTHER_PLATFORM_LABELS
       then other_platforms_handler text ;; ret true
  else ret false.

End Handlers.

(** * Vocabulary of the statements

    What follows is not part of the program: these definitions name what the
    statements below talk about. *)

Unset Implicit Arguments.

(** Membership in the reserved set. *)
Definition is_reserved (c : ascii) : bool :=
  existsb (Ascii.eqb c) (list_ascii_of_string reserved_chars).

(** What one character becomes: a reserved one gets the marker in front. *)
Definition escape_char (c : ascii) : string :=
  if is_reserved c then String PyStr.backslash (String c EmptyString)
  else String c EmptyString.

(** Reading an escaped text back: a marker in front of a reserved character is
    dropped, everything else is kept.  This is how a MarkdownV2 reader sees the
    text; the program has no such function, it serves to state the round trip. *)
Fixpoint strip_markers (s : string) : string :=
  match s with
  | EmptyString => EmptyString
  | String c s' =>
      match s' with
      | String d _ =>
          if Ascii.eqb c PyStr.backslash && is_reserved d
          then strip_markers s'
          else String c (strip_markers s')
      | EmptyString => String c EmptyString
      end
  end.


(** The escape marker, as a test on characters. *)
Definition is_marker (c : ascii) : bool := Ascii.eqb c PyStr.backslash.

(** One turn of the loop of [escape_markdown_v2]. *)
Definition escape_step (text : string) (char : ascii) : string :=
  PyStr.replace (String char "") (String PyStr.backslash (String char "")) text.

(** The text does not open with a reserved character. *)
Definition head_plain (s : string) : bool :=
  match s with
  | String d _ => negb (is_reserved d)
  | EmptyString => true
  end.

(** ** Searching a text for a pattern, one character at a time

    [run needle act s] reads [s] and keeps the set of the lengths [k] such that
    the first [k] characters of [needle] end at the current position ([0] is
    always such a length and is left out of the set); the full length, once
    reached, stays.  This locates every occurrence [PyStr.contains] sees, and
    it composes over concatenation, which [PyStr.contains] does not. *)

Module Scan.

Section Needle.

Variable needle : string.

Definition at_pos (k : nat) (c : ascii) : bool :=
  match String.get k needle with
  | Some x => Ascii.eqb x c
  | None => false
  end.

Definition next (c : ascii) (k : nat) : list nat :=
  if Nat.eqb k (String.length needle) then [k]
  else if at_pos k c then [S k] else [].

Definition step (act : list nat) (c : ascii) : list nat :=
  flat_map (next c) (0 :: act).

Fixpoint run (act : list nat) (s : string) : list nat :=
  match s with
  | EmptyString => act
  | String c s' => run (step act c) s'
  end.

Definition found (act : list nat) : bool :=
  existsb (Nat.eqb (String.length needle)) (0 :: act).

Definition subset (l1 l2 : list nat) : bool :=
  forallb (fun x => existsb (Nat.eqb x) l2) l1.

(** Reading [s] from a state within [U] ends within [U]. *)
Definition stable (U : list nat) (s : string) : Prop :=
  incl (run U s) U.

(** Reading [s] from a state within [U] ends within [V]. *)
Definition leads (U V : list nat) (s : string) : Prop :=
  incl (run U s) V.

End Needle.

End Scan.

(** ** The layout of a caption *)

Module Layout.

(** The patterns looked for in a caption: the strike-through marker, the
    opening of the savings line, two escape markers in a row. *)
Definition STRIKE : string := "~~".
Definition SAVINGS_LABEL : string := "💰 *وفرت: ".

(** Classes of characters. *)
Definition is_decimal (c : ascii) : bool :=
  existsb (Ascii.eqb c) (list_ascii_of_string "-0123456789").


Definition any_char (c : ascii) : bool := true.

(** The constant pieces of the two layouts. *)
Definition HEAD : string := "*🏷️ المنتج ".
Definition MIDDLE_PLAIN : string := "*" ++ PyStr.LF ++ PyStr.LF ++ "💵 *السعر: ".
Definition MIDDLE_DISCOUNT : string :=
  "*" ++ PyStr.LF ++ PyStr.LF ++ "💵 *السعر:*" ++ PyStr.LF ++ "~~".
Definition ARROW : string := "~~ ➡️ *".
Definition BEFORE_SAVINGS : string := "*" ++ PyStr.LF.
Definition TAIL : string := "* 🎉".

(** The caption of a product without a discount: one price line. *)
Definition plain_form (idx : Z) (title price : string) : string :=
  HEAD ++ PyStr.str_int idx ++ ": " ++ escape_markdown_v2 title
    ++ MIDDLE_PLAIN ++ escape_markdown_v2 (price ++ CURRENCY) ++ "*".

(** The part of the caption of a discounted product that stands before the
    savings line. *)
Definition discount_front (idx : Z) (title old new : string) : string :=
  HEAD ++ PyStr.str_int idx ++ ": " ++ escape_markdown_v2 title
    ++ MIDDLE_DISCOUNT ++ escape_markdown_v2 (old ++ CURRENCY)
    ++ ARROW ++ escape_markdown_v2 (new ++ CURRENCY) ++ BEFORE_SAVINGS.

Definition discount_form (idx : Z) (title old new savings : string) : string :=
  discount_front idx title old new
    ++ SAVINGS_LABEL ++ escape_markdown_v2 (savings ++ CURRENCY) ++ TAIL.

End Layout.

(** ** Cards, outboxes and what a handler sends *)

Module Cards.

Section WithRuntime.

Context {RT : PyRuntime}.

(** The test of the comprehension in [get_products_by_category]. *)
Definition in_category (category : string) (d : dict) : bool :=
  eq_str (get d "category" JNull) category.



(** The photo the card of a product goes with. *)
Definition chosen_photo (e : env) (image : string) : option string :=
  if path_exists e image then Some image
  else if path_exists e PLACEHOLDER_PATH then Some PLACEHOLDER_PATH
  else None.

(** The state once the photo is chosen: a warning when there is none. *)
Definition after_photo (e : env) (image : string) (s : state) : state :=
  if path_exists e image then s
  else if path_exists e PLACEHOLDER_PATH then s
  else logged s WARNING "Placeholder image not found; using text fallback".

Definition rich_card (ph : option string) (caption : string) (url : value)
  : outbound :=
  {| photo := ph; body := caption;
     reply_markup := Some (_build_product_keyboard url);
     mode := Some MarkdownV2 |}.

Definition plain_card (caption : string) (url : value) : outbound :=
  {| photo := None; body := plain_caption caption;
     reply_markup := Some (_build_product_keyboard url);
     mode := None |}.

(** A product card is a message with the purchase button; it counts when it
    went through. *)
Definition is_card (x : outbound * bool) : bool :=
  snd x &&
  match reply_markup (fst x) with
  | Some (InlineKeyboardMarkup _) => true
  | _ => false
  end.

Definition delivered_cards (out : list (outbound * bool)) : list outbound :=
  map fst (filter is_card out).


(** The log records of a load that fails because the file is absent, is not
    UTF-8 or is not JSON; [None] for every other outcome of the read. *)
Definition failure_records (src : source) : option (list (level * string)) :=
  match src with
  | Missing =>
      Some [ (ERROR, "products.json not found in data/ folder");
             (ERROR, "Data load error: data/products.json missing") ]
  | NotJSON m =>
      Some [ (ERROR, "Invalid JSON in products.json: " ++ m);
             (ERROR, "Data load error: Invalid JSON format in products.json") ]
  | NotUTF8 m => Some [ (ERROR, "Data load error: " ++ m) ]
  | Unreadable _ | Decoded _ => None
  end.

(** The menu of categories that [amazon_handler] sends. *)
Definition AMAZON_MENU : outbound :=
  {| photo := None;
     body := "🚀 **مرحباً بك في أمازون!**" ++ PyStr.LF ++ PyStr.LF
               ++ "🛍️ *اختر القسم الذي يهمك لعرض العروض الحصرية:*";
     reply_markup :=
       Some (ReplyKeyboardMarkup
               {| keyboard := [ ["🛒 مواد غذائية"; "💄 الجمال"];
                                ["📱 الجوالات"; "🏠 الأجهزة المنزلية"];
                                [BACK_LABEL] ];
                  resize_keyboard := true;
                  one_time_keyboard := Some false;
                  input_field_placeholder := Some "🎯 اختر القسم..." |});
     mode := Some Markdown |}.

(** Every message [m] adds to the outbox satisfies [P]. *)
Definition emits {A} (P : outbound -> Prop) (m : M A) : Prop :=
  forall e s, exists new,
    outbox (snd (m e s)) = (outbox s ++ new)%list /\
    Forall (fun x => P (fst x)) new.

(** The message is not the unknown-category reply. *)
Definition not_unknown (m : outbound) : Prop := m <> UNKNOWN_CATEGORY.

End WithRuntime.

End Cards.

(** ** Sample data for the examples *)

Module Samples.

(** A runtime for the examples: no floating-point number occurs in them, no
    container is printed, and the start command is the text [/start]. *)
Definition runtime : PyRuntime :=
  {| pyfloat := Empty_set;
     float_str := fun f => match f with end;
     float_gt0 := fun f => match f with end;
     float_sub := fun f _ => f;
     float_of_int := fun _ => None;
     container_repr := fun _ => "[...]";
     CommandStart := fun text => String.eqb text "/start" |}.

Definition product : Type := list (string * json Empty_set).

Definition cable : product :=
  [ ("id", JNum (Int 1)); ("title", JStr "USB-C cable (2m)");
    ("category", JStr "mobiles"); ("new_price", JNum (Int 80));
    ("old_price", JNum (Int 120)); ("detail_url", JStr "https://shop.example/1") ].

Definition phone : product :=
  [ ("id", JNum (Int 2)); ("title", JStr "Phone");
    ("category", JStr "mobiles"); ("new_price", JNum (Int 900));
    ("detail_url", JStr "https://shop.example/2") ].

Definition soap : product :=
  [ ("id", JNum (Int 3)); ("title", JStr "Soap");
    ("category", JStr "beauty"); ("new_price", JNum (Int 5));
    ("old_price", JNum (Int 0)); ("detail_url", JStr "https://shop.example/3") ].

Definition MOBILES : string := "📱 الجوالات".
Definition GROCERIES : string := "🛒 مواد غذائية".

Definition world (src : @source runtime) (net : nat -> option string)
  : @env runtime :=
  {| products_json := src;
     path_exists := fun _ => false;
     hour := 9;
     delivery := net |}.

Definition catalog : @source runtime :=
  @Decoded runtime (JList (map JDict [cable; soap; phone])).

(** A transport that never fails. *)
Definition reliable : nat -> option string := fun _ => None.


(** Valid JSON that is not a list of objects: [{"products": []}]. *)
Definition not_a_list : @source runtime :=
  @Decoded runtime (JDict [("products", JList [])]).

(** The rich caption of the cable at position 1. *)
(** A record of the mobiles category that has no title. *)
Definition untitled : product :=
  [ ("id", JNum (Int 4)); ("category", JStr "mobiles");
    ("new_price", JNum (Int 10)); ("detail_url", JStr "https://shop.example/4") ].


End Samples.

(** ** More vocabulary: texts *)

Module Texts.

(** The character [c] occurs in [s]. *)
Definition occurs (c : ascii) (s : string) : bool :=
  existsb (Ascii.eqb c) (list_ascii_of_string s).

(** No character of [a] occurs in [b]. *)
Definition apart (a b : string) : bool :=
  PyStr.all_chars (fun c => negb (occurs c b)) a.

(** The arrow of the discounted price line. *)
Definition ARROW_GLYPH : string := "➡️".

End Texts.

(** ** More vocabulary: routing and sending *)

Module Routes.

Section RoutesVocabulary.

Context {RT : PyRuntime}.

(** The labels the filters of the router name. *)
Definition routed (text : string) : Prop :=
  In text (AMAZON_LABEL :: BACK_LABEL :: SHOW_MORE_LABEL
             :: values CATEGORY_MAP ++ OTHER_PLATFORM_LABELS)%list.

(** Every button of the reply keyboard of [m], if it has one, bears a routed
    label. *)
Definition buttons_routed (m : outbound) : Prop :=
  match reply_markup m with
  | Some (ReplyKeyboardMarkup k) => Forall (Forall routed) (keyboard k)
  | _ => True
  end.

(** A rich card as [send_product_message] builds them: MarkdownV2, the
    purchase keyboard, and a photo, if any, that is on disk. *)
Definition rich_shape (e : env) (m : outbound) : Prop :=
  mode m = Some MarkdownV2 /\
  (exists url, reply_markup m = Some (_build_product_keyboard url)) /\
  (forall f, photo m = Some f -> path_exists e f = true).

(** The plain card that goes with a rich one. *)
Definition plain_of (rich : outbound) : outbound :=
  {| photo := None; body := plain_caption (body rich);
     reply_markup := reply_markup rich; mode := None |}.




(** [m] adds at most [n] sends to the outbox. *)
Definition grows {A} (n : nat) (m : M A) : Prop :=
  forall e s, exists new,
    outbox (snd (m e s)) = (outbox s ++ new)%list /\ List.length new <= n.

(** [m] leaves the outbox as it is. *)
Definition silent {A} (m : M A) : Prop :=
  forall e s, outbox (snd (m e s)) = outbox s.

(** When [m] returns, the last send of the outbox is one of its own and went
    through. *)
Definition answers {A} (m : M A) : Prop :=
  forall e s a s', m e s = (Ok a, s') ->
    exists pre x, outbox s' = (outbox s ++ pre ++ [(x, true)])%list.

End RoutesVocabulary.

End Routes.

(** ** More sample data *)

Module MoreSamples.

Import Samples.

(** A record whose new price is above its old price. *)
Definition overpriced : product :=
  [ ("id", JNum (Int 5)); ("title", JStr "Case");
    ("category", JStr "mobiles"); ("new_price", JNum (Int 120));
    ("old_price", JNum (Int 100)); ("detail_url", JStr "https://shop.example/5") ].



(** An empty object as catalog. *)
Definition empty_object : @source runtime := @Decoded runtime (JDict []).

End MoreSamples.

(** * Properties *)

(** ** Strings *)

Module StrFacts.

Lemma append_nil_r (s : string) : s ++ "" = s.
Proof. induction s as [|c s IH]; simpl; [reflexivity | now rewrite IH]. Qed.

Lemma append_assoc (a b c : string) : (a ++ b) ++ c = a ++ (b ++ c).
Proof. induction a as [|x a IH]; simpl; [reflexivity | now rewrite IH]. Qed.

Lemma expand_app (f : ascii -> string) (a b : string) :
  PyStr.expand f (a ++ b) = PyStr.expand f a ++ PyStr.expand f b.
Proof.
  induction a as [|x a IH]; simpl; [reflexivity|].
  now rewrite IH, append_assoc.
Qed.

Lemma prefix_single (c x : ascii) (s : string) :
  prefix (String c "") (String x s) = Ascii.eqb x c.
Proof.
  simpl. destruct (ascii_dec c x) as [->|n].
  - rewrite Ascii.eqb_refl. now destruct s.
  - symmetry. apply Ascii.eqb_neq. congruence.
Qed.

Lemma prefix_app (p b : string) : prefix p (p ++ b) = true.
Proof.
  induction p as [|y p IH]; simpl; [now destruct b|].
  destruct (ascii_dec y y); [exact IH | congruence].
Qed.

(** Replacing one character is a character-by-character substitution. *)
Lemma replace_single (c : ascii) (new s : string) :
  PyStr.replace (String c "") new s
  = PyStr.expand (fun x => if Ascii.eqb x c then new else String x "") s.
Proof.
  unfold PyStr.replace.
  induction s as [|x s IH]; [reflexivity|].
  cbn [PyStr.replace_from PyStr.expand].
  rewrite prefix_single. cbn [String.length Nat.sub].
  rewrite IH. destruct (Ascii.eqb x c); reflexivity.
Qed.

(** Every character is the image of its code. *)
Lemma ascii_cases (P : ascii -> Prop) :
  (forall c, In c (map ascii_of_nat (seq 0 256)) -> P c) -> forall c, P c.
Proof.
  intros H c. apply H. rewrite <- (ascii_nat_embedding c).
  apply in_map, in_seq. pose proof (nat_ascii_bounded c). lia.
Qed.

(** A check that holds on the 256 characters holds on every character. *)
Lemma forall_ascii (p : ascii -> bool) :
  forallb p (map ascii_of_nat (seq 0 256)) = true -> forall c, p c = true.
Proof.
  intros H. apply ascii_cases. intros c Hc.
  rewrite forallb_forall in H. now apply H.
Qed.

End StrFacts.

(** ** The escaping *)

Module Escape.

Import StrFacts.

Lemma steps_app (l : list ascii) (a b : string) :
  fold_left escape_step l (a ++ b)
  = fold_left escape_step l a ++ fold_left escape_step l b.
Proof.
  revert a b. induction l as [|r l IH]; intros a b; [reflexivity|].
  cbn [fold_left]. rewrite <- IH. f_equal.
  unfold escape_step. rewrite !replace_single. apply expand_app.
Qed.

Lemma escape_app (a b : string) :
  escape_markdown_v2 (a ++ b) = escape_markdown_v2 a ++ escape_markdown_v2 b.
Proof. apply steps_app. Qed.

Lemma escape_one (c : ascii) :
  escape_markdown_v2 (String c "") = escape_char c.
Proof.
  revert c.
  assert (H : forall c,
             String.eqb (escape_markdown_v2 (String c "")) (escape_char c) = true).
  { apply forall_ascii. vm_compute. reflexivity. }
  intros c. apply String.eqb_eq, H.
Qed.

(** The loop of replacements puts one marker in front of every reserved
    character and changes nothing else. *)
Lemma escape_expand (s : string) :
  escape_markdown_v2 s = PyStr.expand escape_char s.
Proof.
  induction s as [|c s IH]; [reflexivity|].
  change (String c s) with (String c "" ++ s).
  rewrite escape_app, escape_one, IH. reflexivity.
Qed.

Lemma reserved_not_marker (c : ascii) : is_reserved c = true -> is_marker c = false.
Proof.
  assert (H : forall c, implb (is_reserved c) (negb (is_marker c)) = true).
  { apply forall_ascii. vm_compute. reflexivity. }
  intros R. specialize (H c). rewrite R in H. simpl in H.
  now apply negb_true_iff.
Qed.

Lemma escape_char_reserved (c : ascii) :
  is_reserved c = true ->
  escape_char c = String PyStr.backslash (String c "").
Proof. unfold escape_char. now intros ->. Qed.

Lemma escape_char_plain (c : ascii) :
  is_reserved c = false -> escape_char c = String c "".
Proof. unfold escape_char. now intros ->. Qed.



Lemma expand_head_plain (s : string) :
  head_plain (PyStr.expand escape_char s) = true.
Proof.
  destruct s as [|c s]; [reflexivity|].
  cbn [PyStr.expand].
  destruct (is_reserved c) eqn:R.
  - now rewrite (escape_char_reserved c R).
  - rewrite (escape_char_plain c R). cbn [append head_plain]. now rewrite R.
Qed.

Lemma strip_keep (c : ascii) (r : string) :
  is_marker c = false \/ head_plain r = true ->
  strip_markers (String c r) = String c (strip_markers r).
Proof.
  intros H. destruct r as [|d r]; [reflexivity|].
  cbn [strip_markers]. fold (is_marker c).
  destruct H as [H|H].
  - now rewrite H.
  - simpl in H. apply negb_true_iff in H. rewrite H, andb_false_r. reflexivity.
Qed.

(** Reading the escaped text gives the text back: no character is escaped
    twice, none is lost. *)
Lemma escape_round_trip (s : string) :
  strip_markers (escape_markdown_v2 s) = s.
Proof.
  rewrite escape_expand.
  induction s as [|c s IH]; [reflexivity|].
  cbn [PyStr.expand].
  destruct (is_reserved c) eqn:R;
    [rewrite (escape_char_reserved c R) | rewrite (escape_char_plain c R)];
    cbn [append].
  - assert (E : strip_markers (String PyStr.backslash
                                 (String c (PyStr.expand escape_char s)))
                = strip_markers (String c (PyStr.expand escape_char s))).
    { cbn [strip_markers]. rewrite Ascii.eqb_refl, R. reflexivity. }
    rewrite E, strip_keep, IH; [reflexivity|].
    left. now apply reserved_not_marker.
  - rewrite strip_keep, IH; [reflexivity|].
    right. apply expand_head_plain.
Qed.

End Escape.

(** ** The search finds every occurrence *)

Module ScanFacts.

Import StrFacts.

Section NeedleFacts.

Variable needle : string.

#[local] Abbreviation at_pos := (Scan.at_pos needle).
#[local] Abbreviation next := (Scan.next needle).
#[local] Abbreviation step := (Scan.step needle).
#[local] Abbreviation run := (Scan.run needle).
#[local] Abbreviation found := (Scan.found needle).
#[local] Abbreviation subset := Scan.subset.
#[local] Abbreviation stable := (Scan.stable needle).
#[local] Abbreviation leads := (Scan.leads needle).

Lemma subset_incl (l1 l2 : list nat) : subset l1 l2 = true -> incl l1 l2.
Proof.
  unfold Scan.subset. rewrite forallb_forall. intros H x Hx.
  specialize (H x Hx). apply existsb_exists in H as (y & Hy & E).
  apply Nat.eqb_eq in E. now subst.
Qed.

Lemma found_in (act : list nat) :
  In (String.length needle) (0 :: act) -> found act = true.
Proof.
  intros H. unfold Scan.found. apply existsb_exists.
  exists (String.length needle). split; [exact H | apply Nat.eqb_refl].
Qed.

Lemma found_incl (a b : list nat) :
  incl a b -> found a = true -> found b = true.
Proof.
  unfold Scan.found. intros I H. apply existsb_exists in H as (x & Hx & E).
  apply existsb_exists. exists x. split; [|exact E].
  destruct Hx as [<-|Hx]; [now left | right; now apply I].
Qed.

Lemma step_incl (a b : list nat) (c : ascii) :
  incl a b -> incl (step a c) (step b c).
Proof.
  intros I x Hx. unfold Scan.step in *.
  apply in_flat_map in Hx as (k & Hk & Hx). apply in_flat_map.
  exists k. split; [|exact Hx].
  destruct Hk as [<-|Hk]; [now left | right; now apply I].
Qed.

Lemma run_incl (s : string) : forall a b, incl a b -> incl (run a s) (run b s).
Proof.
  induction s as [|c s IH]; intros a b I; [exact I|].
  simpl. apply IH, step_incl, I.
Qed.

Lemma run_app (a b : string) : forall act, run act (a ++ b) = run (run act a) b.
Proof. induction a as [|c a IH]; intros act; simpl; [reflexivity | apply IH]. Qed.

Lemma step_keeps (act : list nat) (c : ascii) :
  In (String.length needle) (0 :: act) -> In (String.length needle) (step act c).
Proof.
  intros H. unfold Scan.step. apply in_flat_map.
  exists (String.length needle). split; [exact H|].
  unfold Scan.next. rewrite Nat.eqb_refl. now left.
Qed.

Lemma run_keeps (s : string) : forall act,
  In (String.length needle) (0 :: act) -> In (String.length needle) (0 :: run act s).
Proof.
  induction s as [|c s IH]; intros act H; [exact H|].
  cbn [Scan.run]. apply IH. right. now apply step_keeps.
Qed.

Lemma length_app (a b : string) :
  String.length (a ++ b) = String.length a + String.length b.
Proof. induction a as [|x a IH]; simpl; [reflexivity | now rewrite IH]. Qed.

Lemma get_middle (a : string) (x : ascii) (b : string) :
  String.get (String.length a) (a ++ String x b) = Some x.
Proof. induction a as [|y a IH]; simpl; [reflexivity | exact IH]. Qed.

Lemma prefix_nil (p : string) : prefix p "" = true -> p = "".
Proof. destruct p; [reflexivity | discriminate]. Qed.

Lemma prefix_cons (x : ascii) (p : string) (c : ascii) (s : string) :
  prefix (String x p) (String c s) = true -> x = c /\ prefix p s = true.
Proof. simpl. destruct (ascii_dec x c); [now split | discriminate]. Qed.

(** A partial match that can be completed by the text ahead is completed. *)
Lemma prefix_run (s : string) : forall pre post act,
  needle = pre ++ post ->
  In (String.length pre) (0 :: act) ->
  prefix post s = true ->
  In (String.length needle) (0 :: run act s).
Proof.
  induction s as [|c s IH]; intros pre post act E K P.
  - apply prefix_nil in P. subst post. rewrite append_nil_r in E.
    subst pre. exact K.
  - destruct post as [|x post].
    + rewrite append_nil_r in E. subst pre. now apply run_keeps.
    + apply prefix_cons in P as [-> P]. cbn [Scan.run].
      apply (IH (pre ++ String c "") post).
      * rewrite E, append_assoc. reflexivity.
      * right. unfold Scan.step. apply in_flat_map.
        exists (String.length pre). split; [exact K|].
        unfold Scan.next, Scan.at_pos.
        rewrite E, get_middle, Ascii.eqb_refl, !length_app.
        simpl String.length.
        replace (Nat.eqb (String.length pre)
                   (String.length pre + S (String.length post)))
          with false by (symmetry; apply Nat.eqb_neq; lia).
        left. lia.
      * exact P.
Qed.

(** Every occurrence is found. *)
Lemma contains_found (s : string) : forall act,
  PyStr.contains needle s = true -> found (run act s) = true.
Proof.
  induction s as [|c s IH]; intros act H; simpl in H;
    apply orb_true_iff in H as [H|H].
  - apply found_in.
    apply (prefix_run "" "" needle); [reflexivity | now left | exact H].
  - discriminate.
  - apply found_in.
    apply (prefix_run (String c s) "" needle); [reflexivity | now left | exact H].
  - cbn [Scan.run]. now apply IH.
Qed.

(** The criterion used below: when reading the text from the start ends
    within a set that does not hold the full length, the text holds no
    occurrence. *)
Lemma absent (U V : list nat) (s : string) :
  leads U V s -> found V = false -> PyStr.contains needle s = false.
Proof.
  intros L F. destruct (PyStr.contains needle s) eqn:C; [|reflexivity].
  apply (contains_found s []) in C.
  rewrite <- F. symmetry. apply found_incl with (a := run [] s); [|exact C].
  intros x Hx. apply L. revert Hx. apply run_incl. intros y [].
Qed.

Lemma stable_then (U V : list nat) (a b : string) :
  stable U a -> leads U V b -> leads U V (a ++ b).
Proof.
  unfold Scan.stable, Scan.leads. intros A B. rewrite run_app.
  intros x Hx. apply B. revert Hx. now apply run_incl.
Qed.

Lemma leads_check (U V : list nat) (s : string) :
  subset (run U s) V = true -> leads U V s.
Proof. apply subset_incl. Qed.

Lemma stable_app (U : list nat) (a b : string) :
  stable U a -> stable U b -> stable U (a ++ b).
Proof.
  unfold Scan.stable. intros A B. rewrite run_app.
  intros x Hx. apply B. revert Hx. now apply run_incl.
Qed.

Lemma stable_check (U : list nat) (s : string) :
  subset (run U s) U = true -> stable U s.
Proof. apply subset_incl. Qed.

(** A text made of pieces [f c], each of which keeps the states within [U]. *)
Lemma stable_expand (U : list nat) (f : ascii -> string) (p : ascii -> bool) :
  forallb (fun c => implb (p c) (subset (run U (f c)) U))
          (map ascii_of_nat (seq 0 256)) = true ->
  forall t, PyStr.all_chars p t = true -> stable U (PyStr.expand f t).
Proof.
  intros H t. induction t as [|c t IH]; intros A.
  - intros x Hx. exact Hx.
  - simpl in A. apply andb_true_iff in A as [Pc A].
    simpl. apply stable_app; [|now apply IH].
    apply stable_check.
    pose proof (forall_ascii _ H c) as Hc. simpl in Hc.
    rewrite Pc in Hc. exact Hc.
Qed.

(** An occurrence that is there by construction. *)
Lemma contains_middle (a b : string) :
  PyStr.contains needle (a ++ needle ++ b) = true.
Proof.
  induction a as [|x a IH].
  - simpl append.
    pose proof (prefix_app needle b) as P.
    destruct (needle ++ b); cbn [PyStr.contains]; rewrite P; reflexivity.
  - cbn [append PyStr.contains]. rewrite IH. apply orb_true_r.
Qed.

End NeedleFacts.

End ScanFacts.

(** ** The caption *)

Module Caption.

Import StrFacts Layout.

Lemma all_chars_any (s : string) : PyStr.all_chars any_char s = true.
Proof. induction s as [|c s IH]; [reflexivity | exact IH]. Qed.



Lemma expand_single (s : string) :
  PyStr.expand (fun c => String c "") s = s.
Proof. induction s as [|c s IH]; simpl; [reflexivity | now rewrite IH]. Qed.

Lemma uint_decimal (d : Decimal.uint) :
  PyStr.all_chars is_decimal (NilEmpty.string_of_uint d) = true.
Proof. induction d; simpl; auto. Qed.

(** [str] of an integer is made of digits and, maybe, a minus sign. *)
Lemma str_int_decimal (z : Z) : PyStr.all_chars is_decimal (PyStr.str_int z) = true.
Proof.
  unfold PyStr.str_int, NilZero.string_of_int.
  destruct (Z.to_int z) as [d|d]; unfold NilZero.string_of_uint.
  - destruct d; try reflexivity; apply uint_decimal.
  - change (PyStr.all_chars is_decimal
              (String "-" match d with
                          | Decimal.Nil => "0"
                          | _ => NilEmpty.string_of_uint d
                          end) = true).
    destruct d; try reflexivity; apply uint_decimal.
Qed.

(** Pieces of a caption that keep a search within [U]. *)

Lemma stable_decimal (needle : string) (U : list nat) :
  forallb (fun c => implb (is_decimal c)
                      (Scan.subset (Scan.run needle U (String c "")) U))
          (map ascii_of_nat (seq 0 256)) = true ->
  forall z, Scan.stable needle U (PyStr.str_int z).
Proof.
  intros H z. rewrite <- expand_single.
  apply ScanFacts.stable_expand with (p := is_decimal); [exact H|].
  apply str_int_decimal.
Qed.

Lemma stable_escape (needle : string) (U : list nat) (p : ascii -> bool) :
  forallb (fun c => implb (p c)
                      (Scan.subset (Scan.run needle U (escape_char c)) U))
          (map ascii_of_nat (seq 0 256)) = true ->
  forall x, PyStr.all_chars p x = true ->
            Scan.stable needle U (escape_markdown_v2 x).
Proof.
  intros H x A. rewrite Escape.escape_expand.
  now apply ScanFacts.stable_expand with (p := p).
Qed.

Ltac constant_piece := apply ScanFacts.stable_check; vm_compute; reflexivity.
Ltac last_piece := apply ScanFacts.leads_check; vm_compute; reflexivity.

Section CaptionProps.

Context {RT : PyRuntime}.

(** What [_build_caption] returns on a record whose title is a string and
    whose prices can be compared and subtracted. *)
Lemma build_caption_eq (p : dict) (idx : Z) (title : string)
  (oldv newv sv : value) (discounted : bool) :
  lookup "title" p = Some (JStr title) ->
  get p "old_price" (JNum (Int 0)) = oldv ->
  lookup "new_price" p = Some newv ->
  py_gt0 oldv = Ok discounted ->
  (if discounted then py_sub oldv newv else Ok (JNum (Int 0))) = Ok sv ->
  _build_caption p idx
  = Ok (if discounted
        then discount_form idx title (py_str oldv) (py_str newv) (py_str sv)
        else plain_form idx title (py_str newv)).
Proof.
  intros Ht Ho Hn Hd Hs. unfold _build_caption, getitem.
  rewrite Ht, Hn, Ho. cbn [rbind]. rewrite Hd. cbn [rbind].
  rewrite Hs. cbn [rbind escape_value].
  destruct discounted; f_equal.
  - unfold discount_form, discount_front. rewrite !append_assoc. reflexivity.
  - unfold plain_form. rewrite !append_assoc. reflexivity.
Qed.

Lemma plain_no_strike (idx : Z) (title price : string) :
  PyStr.contains STRIKE (plain_form idx title price) = false.
Proof.
  apply ScanFacts.absent with (U := [1]) (V := [1]); [|reflexivity].
  unfold plain_form.
  apply ScanFacts.stable_then; [constant_piece|].
  apply ScanFacts.stable_then; [apply stable_decimal; vm_compute; reflexivity|].
  apply ScanFacts.stable_then; [constant_piece|].
  apply ScanFacts.stable_then;
    [apply stable_escape with (p := any_char);
     [vm_compute; reflexivity | apply all_chars_any]|].
  apply ScanFacts.stable_then; [constant_piece|].
  apply ScanFacts.stable_then;
    [apply stable_escape with (p := any_char);
     [vm_compute; reflexivity | apply all_chars_any]|].
  last_piece.
Qed.

Lemma plain_no_savings (idx : Z) (title price : string) :
  PyStr.contains SAVINGS_LABEL (plain_form idx title price) = false.
Proof.
  apply ScanFacts.absent with (U := [1; 2; 3; 4; 5]) (V := [6]); [|reflexivity].
  unfold plain_form.
  apply ScanFacts.stable_then; [constant_piece|].
  apply ScanFacts.stable_then; [apply stable_decimal; vm_compute; reflexivity|].
  apply ScanFacts.stable_then; [constant_piece|].
  apply ScanFacts.stable_then;
    [apply stable_escape with (p := any_char);
     [vm_compute; reflexivity | apply all_chars_any]|].
  apply ScanFacts.stable_then; [constant_piece|].
  apply ScanFacts.stable_then;
    [apply stable_escape with (p := any_char);
     [vm_compute; reflexivity | apply all_chars_any]|].
  last_piece.
Qed.

Lemma discount_has_savings (idx : Z) (title old new savings : string) :
  PyStr.contains SAVINGS_LABEL (discount_form idx title old new savings) = true.
Proof. unfold discount_form. apply ScanFacts.contains_middle. Qed.


Lemma discount_has_marker (idx : Z) (title old new savings : string) :
  PyStr.contains STRIKE (discount_form idx title old new savings) = true.
Proof.
  replace (discount_form idx title old new savings)
    with ((HEAD ++ PyStr.str_int idx ++ ": " ++ escape_markdown_v2 title
             ++ "*" ++ PyStr.LF ++ PyStr.LF ++ "💵 *السعر:*" ++ PyStr.LF)
            ++ STRIKE
            ++ (escape_markdown_v2 (old ++ CURRENCY) ++ ARROW
                  ++ escape_markdown_v2 (new ++ CURRENCY) ++ BEFORE_SAVINGS
                  ++ SAVINGS_LABEL ++ escape_markdown_v2 (savings ++ CURRENCY)
                  ++ TAIL)).
  - apply ScanFacts.contains_middle.
  - unfold discount_form, discount_front. rewrite !append_assoc. reflexivity.
Qed.







Lemma sub_int (x y : Z) :
  py_sub (JNum (Int x)) (JNum (Int y)) = Ok (JNum (Int (x - y))).
Proof. reflexivity. Qed.


(** Whatever the numbers are, the strike-through segment and the savings line
    are there exactly when [old_price > 0] holds. *)
Lemma discount_gate (p : dict) (idx : Z) (title : string)
  (oldv newv sv : value) (discounted : bool) :
  lookup "title" p = Some (JStr title) ->
  get p "old_price" (JNum (Int 0)) = oldv ->
  lookup "new_price" p = Some newv ->
  py_gt0 oldv = Ok discounted ->
  (if discounted then py_sub oldv newv else Ok (JNum (Int 0))) = Ok sv ->
  exists caption,
    _build_caption p idx = Ok caption /\
    PyStr.contains SAVINGS_LABEL caption = discounted /\
    PyStr.contains STRIKE caption = discounted.
Proof.
  intros Ht Ho Hn Hd Hs.
  rewrite (build_caption_eq p idx title _ _ _ _ Ht Ho Hn Hd Hs).
  eexists. split; [reflexivity|].
  destruct discounted.
  - split; [apply discount_has_savings | apply discount_has_marker].
  - split; [apply plain_no_savings | apply plain_no_strike].
Qed.



End CaptionProps.

End Caption.

(** ** The handlers *)

Module Handlers.

Import StrFacts Layout Cards.

Section HandlerProps.

Context {RT : PyRuntime}.

(** *** Running the monad *)

Lemma bind_ok {A B} (m : M A) (k : A -> M B) e s a s' :
  m e s = (Ok a, s') -> bind m k e s = k a e s'.
Proof. unfold bind. now intros ->. Qed.

(** *** The catalog *)

Lemma load_products_decoded e s j n :
  products_json e = Decoded j ->
  py_len j = Ok n ->
  load_products e s
  = (Ok j, logged s INFO ("Loaded " ++ PyStr.str_int (Z.of_nat n)
                            ++ " products from JSON")).
Proof.
  intros Hj Hn.
  unfold load_products, bind, ask, attempt, json_load, bind, ask, lift, logger, ret.
  rewrite Hj. cbv beta iota. rewrite Hj. cbv beta iota. rewrite Hn. reflexivity.
Qed.

Lemma matching_dicts (category : string) (ds : list dict) :
  matching category (map JDict ds) = Ok (filter (in_category category) ds).
Proof.
  induction ds as [|d ds IH]; [reflexivity|].
  cbn [map matching as_dict rbind]. rewrite IH. cbn [rbind filter].
  unfold in_category at 2. reflexivity.
Qed.

(** A catalog that is a list of objects: the first three records of the
    category, in the order of the document. *)
Lemma get_products_listing (category : string) (ds : list dict) :
  get_products_by_category (JList (map JDict ds)) category
  = Ok (firstn 3 (filter (in_category category) ds)).
Proof.
  unfold get_products_by_category. cbn [py_iter rbind].
  rewrite matching_dicts. reflexivity.
Qed.

(** The label of a category leads back to its key, which is not empty. *)
Lemma selected_category_of (category text : string) :
  In (category, text) CATEGORY_MAP ->
  selected_category text = Some category /\ falsy (Some category) = false.
Proof.
  intros [H|[H|[H|[H|[]]]]]; inversion H; subst; split; reflexivity.
Qed.

Lemma category_handler_listing e s category text ds :
  In (category, text) CATEGORY_MAP ->
  products_json e = Decoded (JList (map JDict ds)) ->
  category_handler text e s
  = let s1 := logged s INFO ("Loaded " ++ PyStr.str_int (Z.of_nat (List.length ds))
                               ++ " products from JSON") in
    match firstn 3 (filter (in_category category) ds) with
    | [] => send EMPTY_CATEGORY e s1
    | ms => (send (LOADING text) ;; send_each 1 ms ;; send END_OF_LIST) e s1
    end.
Proof.
  intros Hc Hj. destruct (selected_category_of _ _ Hc) as [Hs Hf].
  unfold category_handler.
  assert (L : attempt load_products e s
              = (Ok (Ok (JList (map JDict ds))),
                 logged s INFO ("Loaded " ++ PyStr.str_int (Z.of_nat (List.length ds))
                                  ++ " products from JSON"))).
  { unfold attempt. rewrite (load_products_decoded e s _ (List.length ds) Hj).
    - reflexivity.
    - cbn. now rewrite length_map. }
  rewrite (bind_ok _ _ _ _ _ _ L). rewrite Hs, Hf.
  unfold lift at 1. rewrite get_products_listing.
  unfold bind at 1.
  destruct (firstn 3 (filter (in_category category) ds)); reflexivity.
Qed.

(** *** One product card *)

Lemma outbox_after_photo e image s : outbox (after_photo e image s) = outbox s.
Proof.
  unfold after_photo.
  destruct (path_exists e image), (path_exists e PLACEHOLDER_PATH); reflexivity.
Qed.




Lemma delivered_cards_app (a b : list (outbound * bool)) :
  delivered_cards (a ++ b) = (delivered_cards a ++ delivered_cards b)%list.
Proof. unfold delivered_cards. now rewrite filter_app, map_app. Qed.






(** *** The category handler *)


(** C9.  For the label of a known category, on a catalog that is a list of
    objects none of which is of that category, the handler sends one message
    and no other: the empty-category notice, whose keyboard is the back
    button; it is neither of the two error messages, and nothing is logged
    as an error. *)
Theorem empty_category_notice e category text ds :
  In (category, text) CATEGORY_MAP ->
  products_json e = Decoded (JList (map JDict ds)) ->
  filter (in_category category) ds = [] ->
  let run := category_handler text e initial in
  outbox (snd run)
  = [(EMPTY_CATEGORY, match delivery e 0 with None => true | Some _ => false end)] /\
  reply_markup EMPTY_CATEGORY
  = Some (ReplyKeyboardMarkup
            {| keyboard := [[BACK_LABEL]]; resize_keyboard := true;
               one_time_keyboard := None; input_field_placeholder := None |}) /\
  EMPTY_CATEGORY <> TEMPORARY_ERROR /\
  EMPTY_CATEGORY <> UNKNOWN_CATEGORY /\
  Forall (fun l => fst l <> ERROR) (logs (snd run)) /\
  fst run = match delivery e 0 with
            | None => Ok tt
            | Some err => Raise (TelegramAPIError err)
            end.
Proof.
  intros Hc Hj He. cbv zeta.
  rewrite (category_handler_listing e initial category text ds Hc Hj). cbv zeta.
  rewrite He. cbn [firstn]. unfold send. cbn [logged initial outbox List.length].
  split; [destruct (delivery e 0); reflexivity|].
  split; [reflexivity|].
  split; [discriminate|]. split; [discriminate|].
  split; destruct (delivery e 0); cbn; try reflexivity;
    repeat constructor; discriminate.
Qed.

(** *** Failures of the catalog source *)

(** How [load_products] ends when the read does not give a value. *)
Lemma load_products_failure e s :
  match products_json e with
  | Missing =>
      load_products e s
      = (Raise (FileNotFoundError "data/products.json missing"),
         logged s ERROR "products.json not found in data/ folder")
  | Unreadable m => load_products e s = (Raise (OSError m), s)
  | NotUTF8 m => load_products e s = (Raise (UnicodeDecodeError m), s)
  | NotJSON m =>
      load_products e s
      = (Raise (ValueError "Invalid JSON format in products.json"),
         logged s ERROR ("Invalid JSON in products.json: " ++ m))
  | Decoded _ => True
  end.
Proof.
  destruct (products_json e) eqn:E; [| | | |exact I];
    cbv [load_products bind ask attempt json_load raise logger];
    rewrite ?E; cbv beta iota; rewrite ?E; reflexivity.
Qed.

(** C5, as the code has it.  When the catalog file is absent, or is there but
    is not UTF-8 or not JSON, the handler logs the cause and sends one message
    and no other, the fixed temporary-error notice, which does not depend on
    the cause; the failure of the load does not leave the handler (only a
    failure of that one send can). *)
Theorem load_failure_notice e s text records :
  failure_records (products_json e) = Some records ->
  let run := category_handler text e s in
  outbox (snd run)
  = (outbox s ++ [(TEMPORARY_ERROR,
                   match delivery e (List.length (outbox s)) with
                   | None => true
                   | Some _ => false
                   end)])%list /\
  logs (snd run) = (logs s ++ records)%list /\
  fst run = match delivery e (List.length (outbox s)) with
            | None => Ok tt
            | Some err => Raise (TelegramAPIError err)
            end.
Proof.
  intros H. cbv zeta.
  assert (E : category_handler text e s
              = send TEMPORARY_ERROR e
                  {| outbox := outbox s; logs := (logs s ++ records)%list |}).
  { pose proof (load_products_failure e s) as L.
    unfold category_handler, bind at 1, attempt.
    destruct (products_json e) as [| m | m | m | j]; try discriminate;
      injection H as <-; rewrite L; cbn [is_FileNotFoundError is_ValueError orb];
      unfold bind, logger, logged; cbn [outbox logs exn_str];
      rewrite <- ?app_assoc; reflexivity. }
  rewrite E. unfold send. cbn [outbox].
  destruct (delivery e (List.length (outbox s))); cbn; auto.
Qed.

(** *** The fallback *)


(** *** The router *)

Lemma amazon_handler_menu : amazon_handler = send AMAZON_MENU.
Proof. reflexivity. Qed.

(** C4, as the code has it.  The "show more" label runs the handler of the
    Amazon platform: one message is sent, the menu of categories; the catalog
    is not read, nothing is logged, and no product card is sent. *)
Theorem show_more_is_category_menu e s :
  CommandStart SHOW_MORE_LABEL = false ->
  let run := router SHOW_MORE_LABEL e s in
  run = (amazon_handler ;; ret true) e s /\
  outbox (snd run)
  = (outbox s ++ [(AMAZON_MENU,
                   match delivery e (List.length (outbox s)) with
                   | None => true
                   | Some _ => false
                   end)])%list /\
  logs (snd run) = logs s /\
  delivered_cards (outbox (snd run)) = delivered_cards (outbox s).
Proof.
  intros H. cbv zeta. unfold router. rewrite H.
  change (String.eqb SHOW_MORE_LABEL AMAZON_LABEL) with false.
  change (String.eqb SHOW_MORE_LABEL BACK_LABEL) with false.
  change (existsb (String.eqb SHOW_MORE_LABEL) (values CATEGORY_MAP)) with false.
  change (String.eqb SHOW_MORE_LABEL SHOW_MORE_LABEL) with true.
  cbv beta iota. split; [reflexivity|].
  unfold show_more_handler. rewrite amazon_handler_menu.
  unfold bind, send, ret.
  destruct (delivery e (List.length (outbox s))); cbn [fst snd sent outbox logs];
    rewrite delivered_cards_app; cbn; rewrite app_nil_r; auto.
Qed.

(** C8, as the code has it.  A text that no filter accepts is left unhandled:
    no handler runs, nothing is sent and nothing is logged. *)
Theorem unmatched_label_unhandled text e s :
  CommandStart text = false ->
  text <> AMAZON_LABEL ->
  text <> BACK_LABEL ->
  ~ In text (values CATEGORY_MAP) ->
  text <> SHOW_MORE_LABEL ->
  ~ In text OTHER_PLATFORM_LABELS ->
  router text e s = (Ok false, s).
Proof.
  intros Hs Ha Hb Hc Hm Ho. unfold router. rewrite Hs.
  apply String.eqb_neq in Ha, Hb, Hm. rewrite Ha, Hb, Hm.
  assert (E : forall l, ~ In text l -> existsb (String.eqb text) l = false).
  { intros l N. destruct (existsb (String.eqb text) l) eqn:X; [|reflexivity].
    apply existsb_exists in X as (y & Hy & Ey). apply String.eqb_eq in Ey.
    subst y. contradiction. }
  rewrite (E _ Hc), (E _ Ho). reflexivity.
Qed.

(** The label of a category reaches the category handler. *)
Lemma router_category text e s :
  CommandStart text = false ->
  In text (values CATEGORY_MAP) ->
  router text e s = (category_handler text ;; ret true) e s.
Proof.
  intros Hs Hc. unfold router. rewrite Hs.
  destruct Hc as [H|[H|[H|[H|[]]]]]; subst text; reflexivity.
Qed.

(** *** What a computation can send *)

Lemma emits_silent {A} P (m : M A) :
  (forall e s, outbox (snd (m e s)) = outbox s) -> emits P m.
Proof.
  intros H e s. exists []. rewrite app_nil_r. split; [apply H | constructor].
Qed.

Lemma emits_ret {A} P (a : A) : emits P (ret a).
Proof. now apply emits_silent. Qed.

Lemma emits_raise {A} P x : emits P (@raise _ A x).
Proof. now apply emits_silent. Qed.

Lemma emits_lift {A} P (r : result A) : emits P (lift r).
Proof. now apply emits_silent. Qed.

Lemma emits_ask P : emits P ask.
Proof. now apply emits_silent. Qed.

Lemma emits_logger P l msg : emits P (logger l msg).
Proof. now apply emits_silent. Qed.

Lemma emits_send (P : outbound -> Prop) m : P m -> emits P (send m).
Proof.
  intros H e s. unfold send.
  destruct (delivery e (List.length (outbox s)));
    eexists; (split; [reflexivity|]); repeat constructor; exact H.
Qed.

Lemma emits_bind {A B} P (m : M A) (k : A -> M B) :
  emits P m -> (forall a, emits P (k a)) -> emits P (bind m k).
Proof.
  intros Hm Hk e s. unfold bind.
  destruct (Hm e s) as (n1 & O1 & F1).
  destruct (m e s) as [[a|x] s1]; cbn [snd] in O1.
  - destruct (Hk a e s1) as (n2 & O2 & F2).
    exists (n1 ++ n2)%list. rewrite O2, O1, app_assoc.
    split; [reflexivity | now apply Forall_app].
  - exists n1. now split.
Qed.

Lemma emits_attempt {A} P (m : M A) : emits P m -> emits P (attempt m).
Proof.
  intros Hm e s. unfold attempt. destruct (Hm e s) as (n & O & F).
  destruct (m e s) as [r s1]. exists n. now split.
Qed.

Create HintDb emits.

#[local] Hint Resolve emits_ret emits_raise emits_lift emits_ask emits_logger
  emits_attempt : emits.

Ltac emits_steps :=
  repeat first
    [ apply emits_bind; [|intro]
    | apply emits_attempt
    | solve [auto with emits]
    | match goal with
      | |- emits _ (match ?x with _ => _ end) => destruct x
      end ].

Lemma load_products_emits P : emits P load_products.
Proof. unfold load_products, json_load. emits_steps. Qed.

Lemma send_product_message_emits p idx :
  emits not_unknown (send_product_message p idx).
Proof.
  unfold send_product_message, get_placeholder_image, answer, answer_photo.
  emits_steps; apply emits_send; discriminate.
Qed.

Lemma send_each_emits ps : forall idx, emits not_unknown (send_each idx ps).
Proof.
  induction ps as [|p ps IH]; intros idx; cbn [send_each].
  - apply emits_ret.
  - apply emits_bind; [apply send_product_message_emits | intros _; apply IH].
Qed.

(** C10.  When the text is the label of a category, the reverse lookup finds
    the key of that category, which is not an empty string, so the test that
    guards the unknown-category reply is false; and whatever the catalog and
    the transport are, no message the handler sends is that reply. *)
Theorem unknown_category_unreachable text :
  In text (values CATEGORY_MAP) ->
  (exists category,
     In (category, text) CATEGORY_MAP /\
     selected_category text = Some category /\
     falsy (selected_category text) = false) /\
  forall e s, exists new,
    outbox (snd (category_handler text e s)) = (outbox s ++ new)%list /\
    Forall (fun x => fst x <> UNKNOWN_CATEGORY) new.
Proof.
  intros H. apply in_map_iff in H as ((category & t) & Et & Hin).
  cbn [snd] in Et. subst t.
  destruct (selected_category_of category text Hin) as [Hs Hf].
  split; [exists category; rewrite Hs; auto|].
  change (emits not_unknown (category_handler text)).
  unfold category_handler. rewrite Hs, Hf.
  apply emits_bind; [apply emits_attempt, load_products_emits|].
  intros [products|x].
  - apply emits_bind; [apply emits_lift|]. intros [|p ps].
    + apply emits_send. discriminate.
    + apply emits_bind; [apply emits_send; discriminate|]. intros _.
      apply emits_bind; [apply send_each_emits|]. intros _.
      apply emits_send. discriminate.
  - destruct (is_FileNotFoundError x || is_ValueError x)%bool.
    + apply emits_bind; [apply emits_logger|]. intros _.
      apply emits_send. discriminate.
    + apply emits_raise.
Qed.

End HandlerProps.

End Handlers.

(** ** The statements at work on the sample data *)

Module Runs.

Import Samples Layout Cards Handlers Caption.

#[local] Existing Instance runtime.

(** C7.  The plain caption of the fallback still holds escape markers: on the
    sample cable, whose title has a hyphen and parentheses, the markers put in
    front of them by the escaping are all there after the three replacements
    of the fallback, and so are the emphasis markers. *)
Theorem plain_fallback_keeps_markers :
  exists caption,
    _build_caption (RT := runtime) cable 1 = Ok caption /\
    PyStr.contains "USB\-C cable \(2m\)" (plain_caption caption) = true /\
    PyStr.count is_marker (plain_caption caption) = 3 /\
    prefix "*" (plain_caption caption) = true.
Proof. eexists. split; [reflexivity|]. vm_compute. auto. Qed.






(** A title made of the whole reserved set. *)
Example escape_reserved_set :
  escape_markdown_v2 reserved_chars
  = "\_\*\[\]\(\)\~\`\>\#\+\-\=\|\{\}\.\!\/".
Proof. reflexivity. Qed.

(** The caption of a record without an old price. *)
Example phone_caption :
  _build_caption (RT := runtime) phone 2
  = Ok ("*🏷️ المنتج 2: Phone*" ++ PyStr.LF ++ PyStr.LF ++ "💵 *السعر: 900 ريال*").
Proof. reflexivity. Qed.

Lemma show_more_example :
  let run := router (RT := runtime) SHOW_MORE_LABEL (world catalog reliable)
               initial in
  run = (amazon_handler ;; ret true) (world catalog reliable) initial /\
  outbox (snd run)
  = (outbox initial
       ++ [(AMAZON_MENU,
            match delivery (world catalog reliable) (List.length (outbox (RT := runtime) initial)) with
            | None => true
            | Some _ => false
            end)])%list /\
  logs (snd run) = logs initial /\
  delivered_cards (outbox (snd run)) = delivered_cards (outbox initial).
Proof.
  apply (show_more_is_category_menu (RT := runtime) (world catalog reliable) initial).
  reflexivity.
Defined.

(** C4, the claim as stated fails: after the two cards of the mobiles
    category, "show more" sends no card at all. *)
Lemma show_more_sends_no_card :
  List.length
    (delivered_cards
       (outbox (snd (router (RT := runtime) MOBILES (world catalog reliable)
                       initial)))) = 2 /\
  delivered_cards
    (outbox (snd (router (RT := runtime) SHOW_MORE_LABEL (world catalog reliable)
                    initial))) = [].
Proof. split; reflexivity. Qed.

Lemma load_failure_example :
  let e := world (@Missing runtime) reliable in
  let run := category_handler (RT := runtime) MOBILES e initial in
  outbox (snd run)
  = (outbox initial
       ++ [(TEMPORARY_ERROR,
            match delivery e (List.length (outbox (RT := runtime) initial)) with
            | None => true
            | Some _ => false
            end)])%list /\
  logs (snd run)
  = (logs initial
       ++ [ (ERROR, "products.json not found in data/ folder");
            (ERROR, "Data load error: data/products.json missing") ])%list /\
  fst run = match delivery e (List.length (outbox (RT := runtime) initial)) with
            | None => Ok tt
            | Some err => Raise (TelegramAPIError err)
            end.
Proof.
  apply (load_failure_notice (RT := runtime) (world (@Missing runtime) reliable)
           initial MOBILES).
  reflexivity.
Defined.

(** C5, the claim as stated fails: a catalog that is valid JSON but not a list
    of objects is not caught; the handler raises and the user gets nothing. *)
Lemma not_a_list_escapes :
  let run := category_handler (RT := runtime) MOBILES (world not_a_list reliable)
               initial in
  fst run = Raise (AttributeError "'str' object has no attribute 'get'") /\
  outbox (snd run) = [].
Proof. split; reflexivity. Qed.

(** Two more ways out of the handler: a file that is there but cannot be opened,
    and a record of the category that lacks its title (the loading message is
    already sent). *)
Example unreadable_file_escapes :
  category_handler MOBILES (world (@Unreadable runtime "Permission denied") reliable)
    initial
  = (Raise (OSError "Permission denied"), initial).
Proof. reflexivity. Qed.

Example missing_title_escapes :
  let run := category_handler MOBILES
               (world (@Decoded runtime (JList [JDict untitled])) reliable) initial in
  fst run = Raise (KeyError "'title'") /\
  map fst (outbox (snd run)) = [LOADING MOBILES].
Proof. split; reflexivity. Qed.



Lemma unmatched_example :
  router (RT := runtime) "hello" (world catalog reliable) initial
  = (Ok false, initial).
Proof.
  apply (unmatched_label_unhandled (RT := runtime) "hello").
  - reflexivity.
  - discriminate.
  - discriminate.
  - simpl. intros [H|[H|[H|[H|[]]]]]; discriminate.
  - discriminate.
  - simpl. intros [H|[H|[]]]; discriminate.
Defined.

(** C8, the claim as stated fails: a text that matches nothing gets no reply,
    the guidance message included. *)
Lemma unknown_label_is_silent :
  CommandStart (PyRuntime := runtime) "hello" = false /\
  ~ In "hello" (AMAZON_LABEL :: BACK_LABEL :: SHOW_MORE_LABEL
                  :: values CATEGORY_MAP ++ OTHER_PLATFORM_LABELS)%list /\
  outbox (snd (router (RT := runtime) "hello" (world catalog reliable) initial))
  = [].
Proof.
  split; [reflexivity|]. split; [|reflexivity].
  simpl. intros H. decompose [or] H; try discriminate; assumption.
Qed.

Lemma empty_category_example :
  let e := world catalog reliable in
  let run := category_handler (RT := runtime) GROCERIES e initial in
  outbox (snd run)
  = [(EMPTY_CATEGORY, match delivery e 0 with None => true | Some _ => false end)] /\
  reply_markup (EMPTY_CATEGORY (RT := runtime))
  = Some (ReplyKeyboardMarkup
            {| keyboard := [[BACK_LABEL]]; resize_keyboard := true;
               one_time_keyboard := None; input_field_placeholder := None |}) /\
  EMPTY_CATEGORY <> TEMPORARY_ERROR /\
  EMPTY_CATEGORY <> UNKNOWN_CATEGORY /\
  Forall (fun l => fst l <> ERROR) (logs (snd run)) /\
  fst run = match delivery e 0 with
            | None => Ok tt
            | Some err => Raise (TelegramAPIError err)
            end.
Proof.
  apply (empty_category_notice (RT := runtime) (world catalog reliable)
           "groceries" GROCERIES [cable; soap; phone]).
  - simpl. auto.
  - reflexivity.
  - reflexivity.
Defined.

Lemma reverse_lookup_example :
  (exists category,
     In (category, MOBILES) CATEGORY_MAP /\
     selected_category MOBILES = Some category /\
     falsy (selected_category MOBILES) = false) /\
  forall (e : env (RT := runtime)) s, exists new,
    outbox (snd (category_handler MOBILES e s)) = (outbox s ++ new)%list /\
    Forall (fun x => fst x <> UNKNOWN_CATEGORY) new.
Proof.
  apply (unknown_category_unreachable (RT := runtime) MOBILES).
  simpl. auto.
Defined.

End Runs.

(** ** Replacing, occurrence by occurrence *)

Module ReplaceFacts.

Import StrFacts Texts.

Lemma prefix_split (p : string) : forall s,
  prefix p s = true -> exists t, s = p ++ t.
Proof.
  induction p as [|x p IH]; intros s H.
  - exists s. reflexivity.
  - destruct s as [|c s]; [discriminate|].
    apply ScanFacts.prefix_cons in H as [-> H].
    destruct (IH s H) as (t & ->). exists t. reflexivity.
Qed.

Lemma prefix_empty (s : string) : prefix "" s = true.
Proof. now destruct s. Qed.

(** Passing over the characters of an occurrence. *)
Lemma replace_skip (old new a : string) : forall s,
  PyStr.replace_from old new (String.length a) (a ++ s)
  = PyStr.replace_from old new 0 s.
Proof. induction a as [|x a IH]; intros s; [reflexivity | apply IH]. Qed.

Lemma replace_hit (c : ascii) (o new s : string) :
  PyStr.replace (String c o) new (String c o ++ s)
  = new ++ PyStr.replace (String c o) new s.
Proof.
  unfold PyStr.replace. cbn [append PyStr.replace_from].
  change (String c (o ++ s)) with (String c o ++ s).
  rewrite prefix_app. cbn [String.length Nat.sub].
  rewrite Nat.sub_0_r, replace_skip. reflexivity.
Qed.

Lemma replace_keep (c : ascii) (o new : string) (x : ascii) (s : string) :
  prefix (String c o) (String x s) = false ->
  PyStr.replace (String c o) new (String x s)
  = String x (PyStr.replace (String c o) new s).
Proof.
  intros H. unfold PyStr.replace. cbn [PyStr.replace_from]. now rewrite H.
Qed.

Lemma replace_nil (c : ascii) (o new : string) :
  PyStr.replace (String c o) new "" = "".
Proof. reflexivity. Qed.

(** Induction on a text read the way [replace] reads it: a character that
    does not open an occurrence, or a whole occurrence. *)
Lemma occurrence_ind (old : string) (Q : string -> Prop) :
  old <> "" ->
  Q "" ->
  (forall x s, prefix old (String x s) = false -> Q s -> Q (String x s)) ->
  (forall s, Q s -> Q (old ++ s)) ->
  forall s, Q s.
Proof.
  intros Hne Hnil Hkeep Hhit.
  assert (H : forall n s, String.length s <= n -> Q s).
  { induction n as [|n IH]; intros s L.
    - destruct s; [exact Hnil | simpl in L; lia].
    - destruct s as [|x s]; [exact Hnil|].
      destruct (prefix old (String x s)) eqn:P.
      + destruct (prefix_split old _ P) as (t & E). rewrite E.
        apply Hhit, IH.
        assert (L' : String.length (old ++ t) <= S n) by (rewrite <- E; exact L).
        rewrite ScanFacts.length_app in L'.
        destruct old; [congruence | simpl in L'; lia].
      + apply Hkeep; [exact P|]. apply IH. simpl in L. lia. }
  intros s. apply (H (String.length s)). lia.
Qed.

Lemma apart_cons (x : ascii) (p new : string) :
  apart (String x p) new = true ->
  occurs x new = false /\ apart p new = true.
Proof.
  unfold apart. cbn [PyStr.all_chars]. intros H.
  apply andb_true_iff in H as [H1 H2]. apply negb_true_iff in H1. now split.
Qed.

Lemma occurs_head (x : ascii) (s : string) : occurs x (String x s) = true.
Proof. unfold occurs. cbn. now rewrite Ascii.eqb_refl. Qed.

(** A text that opens the result and shares no character with the
    replacement opens the source too. *)
Lemma replace_prefix (c : ascii) (o : string) (n : ascii) (new : string) :
  forall s p,
    apart p (String n new) = true ->
    prefix p (PyStr.replace (String c o) (String n new) s) = true ->
    prefix p s = true.
Proof.
  intros s. pattern s. apply (occurrence_ind (String c o)); [discriminate| | |].
  - intros p _ H. rewrite replace_nil in H.
    apply ScanFacts.prefix_nil in H. subst p. reflexivity.
  - intros x t K IH p A H. rewrite (replace_keep _ _ _ _ _ K) in H.
    destruct p as [|y p]; [reflexivity|].
    apply ScanFacts.prefix_cons in H as [-> H].
    apply apart_cons in A as [_ A].
    cbn [prefix]. destruct (ascii_dec x x); [|congruence]. now apply IH.
  - intros t IH p A H. rewrite replace_hit in H.
    destruct p as [|y p]; [apply prefix_empty|].
    cbn [append] in H. apply ScanFacts.prefix_cons in H as [-> _].
    apply apart_cons in A as [A _]. rewrite occurs_head in A. discriminate.
Qed.

Lemma contains_cons (p : string) (x : ascii) (s : string) :
  PyStr.contains p (String x s)
  = (prefix p (String x s) || PyStr.contains p s)%bool.
Proof. reflexivity. Qed.

(** A pattern does not start inside a text it shares no character with. *)
Lemma contains_after (y : ascii) (p n : string) : forall s,
  apart n (String y p) = true ->
  PyStr.contains (String y p) (n ++ s) = PyStr.contains (String y p) s.
Proof.
  induction n as [|x n IH]; intros s A; [reflexivity|].
  apply apart_cons in A as [O A]. cbn [append]. rewrite contains_cons, IH by exact A.
  replace (prefix (String y p) (String x (n ++ s))) with false; [reflexivity|].
  symmetry. cbn [prefix]. destruct (ascii_dec y x) as [->|]; [|reflexivity].
  rewrite occurs_head in O. discriminate.
Qed.

Lemma contains_tail (p : string) (a : string) : forall s,
  PyStr.contains p (a ++ s) = false -> PyStr.contains p s = false.
Proof.
  induction a as [|x a IH]; intros s H; [exact H|].
  cbn [append] in H. rewrite contains_cons in H.
  apply orb_false_iff in H as [_ H]. now apply IH.
Qed.

Lemma occurs_cons (x y : ascii) (s : string) :
  occurs x (String y s) = (Ascii.eqb x y || occurs x s)%bool.
Proof. reflexivity. Qed.

Lemma apart_sym_head (a b : string) :
  apart a b = true -> forall x, occurs x a = true -> occurs x b = false.
Proof.
  induction a as [|y a IH]; intros A x O; [discriminate|].
  apply apart_cons in A as [Oy A].
  rewrite occurs_cons in O. apply orb_true_iff in O as [E|O].
  - apply Ascii.eqb_eq in E. now subst.
  - now apply IH.
Qed.

Lemma apart_intro (a b : string) :
  (forall x, occurs x a = true -> occurs x b = false) -> apart a b = true.
Proof.
  induction a as [|y a IH]; intros H; [reflexivity|].
  unfold apart. cbn [PyStr.all_chars]. apply andb_true_iff. split.
  - apply negb_true_iff, H, occurs_head.
  - apply IH. intros x O. apply H. rewrite occurs_cons, O. apply orb_true_r.
Qed.

Lemma apart_swap (a b : string) : apart a b = true -> apart b a = true.
Proof.
  intros A. apply apart_intro. intros x O.
  destruct (occurs x a) eqn:Oa; [|reflexivity].
  rewrite (apart_sym_head a b A x Oa) in O. discriminate.
Qed.

(** A pattern absent from the source stays absent when the replacement is
    not empty and shares no character with it. *)
Lemma replace_keeps_absent (c : ascii) (o : string) (n : ascii) (new : string)
  (y : ascii) (p : string) :
  apart (String y p) (String n new) = true ->
  forall s,
    PyStr.contains (String y p) s = false ->
    PyStr.contains (String y p) (PyStr.replace (String c o) (String n new) s)
    = false.
Proof.
  intros A s. pattern s. apply (occurrence_ind (String c o)); [discriminate| | |].
  - intros _. reflexivity.
  - intros x t K IH H. rewrite (replace_keep _ _ _ _ _ K).
    rewrite contains_cons in H. apply orb_false_iff in H as [H1 H2].
    rewrite contains_cons, (IH H2), orb_false_r.
    destruct (prefix (String y p)
                (String x (PyStr.replace (String c o) (String n new) t))) eqn:P;
      [|reflexivity].
    rewrite <- (replace_keep _ _ _ _ _ K) in P.
    apply (replace_prefix c o n new _ _ A) in P. congruence.
  - intros t IH H. rewrite replace_hit.
    rewrite contains_after by (now apply apart_swap).
    apply IH. now apply contains_tail in H.
Qed.

(** The pattern itself is gone when the replacement is not empty and shares
    no character with it. *)
Lemma replace_removes (c : ascii) (o : string) (n : ascii) (new : string) :
  apart (String c o) (String n new) = true ->
  forall s,
    PyStr.contains (String c o) (PyStr.replace (String c o) (String n new) s)
    = false.
Proof.
  intros A s. pattern s. apply (occurrence_ind (String c o)); [discriminate| | |].
  - reflexivity.
  - intros x t K IH. rewrite (replace_keep _ _ _ _ _ K).
    rewrite contains_cons, IH, orb_false_r.
    destruct (prefix (String c o)
                (String x (PyStr.replace (String c o) (String n new) t))) eqn:P;
      [|reflexivity].
    rewrite <- (replace_keep _ _ _ _ _ K) in P.
    apply (replace_prefix c o n new _ _ A) in P. congruence.
  - intros t IH. rewrite replace_hit.
    rewrite contains_after by (now apply apart_swap). exact IH.
Qed.

(** Deleting a doubled character leaves no doubled character. *)
Lemma delete_pair (c : ascii) : forall s,
  PyStr.contains (String c (String c "")) (PyStr.replace (String c (String c "")) "" s)
  = false /\
  (prefix (String c "") (PyStr.replace (String c (String c "")) "" s) = true ->
   prefix (String c "") s = true).
Proof.
  intros s. pattern s.
  apply (occurrence_ind (String c (String c ""))); [discriminate| | |].
  - split; [reflexivity | discriminate].
  - intros x t K [IH1 IH2]. rewrite (replace_keep _ _ _ _ _ K). split.
    + rewrite contains_cons, IH1, orb_false_r.
      destruct (prefix (String c (String c ""))
                  (String x (PyStr.replace (String c (String c "")) "" t))) eqn:P;
        [|reflexivity].
      apply ScanFacts.prefix_cons in P as [-> P]. specialize (IH2 P).
      destruct t as [|z t]; [discriminate|].
      apply ScanFacts.prefix_cons in IH2 as [-> _].
      cbn [prefix] in K. destruct (ascii_dec z z); [|congruence].
      destruct t; discriminate.
    + intros P. apply ScanFacts.prefix_cons in P as [-> _].
      cbn [prefix]. destruct (ascii_dec x x); [|congruence]. now destruct t.
  - intros t [IH1 IH2]. rewrite replace_hit. cbn [append]. split; [exact IH1|].
    intros _. exact (prefix_app (String c "") (String c t)).
Qed.

End ReplaceFacts.

(** ** Further properties of the escaping and of the captions *)

Module MoreCaption.

Import StrFacts Texts Layout.

Lemma escape_length (s : string) :
  String.length (escape_markdown_v2 s)
  = String.length s + PyStr.count is_reserved s.
Proof.
  rewrite Escape.escape_expand.
  induction s as [|c s IH]; [reflexivity|].
  cbn [PyStr.expand PyStr.count String.length].
  rewrite ScanFacts.length_app, IH.
  destruct (is_reserved c) eqn:R.
  - rewrite (Escape.escape_char_reserved c R). simpl. lia.
  - rewrite (Escape.escape_char_plain c R). simpl. lia.
Qed.

Lemma escape_clean (s : string) :
  PyStr.count is_reserved s = 0 -> escape_markdown_v2 s = s.
Proof.
  rewrite Escape.escape_expand.
  induction s as [|c s IH]; [reflexivity|].
  cbn [PyStr.expand PyStr.count]. destruct (is_reserved c) eqn:R; [discriminate|].
  intros H. rewrite (Escape.escape_char_plain c R), IH by exact H. reflexivity.
Qed.

(** X1.  Escaping a concatenation is concatenating the escaped parts: the
    loop of replacements never joins or splits anything across the seam. *)
Theorem escape_concat (a b : string) :
  escape_markdown_v2 (a ++ b) = escape_markdown_v2 a ++ escape_markdown_v2 b.
Proof. apply Escape.escape_app. Qed.

(** X2.  The escaped text is longer than the text by the number of its
    reserved characters, and escaping leaves a text as it is exactly when the
    text has no reserved character. *)
Theorem escape_fixed_points (s : string) :
  String.length (escape_markdown_v2 s)
  = String.length s + PyStr.count is_reserved s /\
  (escape_markdown_v2 s = s <-> PyStr.count is_reserved s = 0).
Proof.
  split; [apply escape_length|]. split.
  - intros E. pose proof (escape_length s) as L. rewrite E in L. lia.
  - apply escape_clean.
Qed.

(** X3.  Escaping loses nothing: two texts with the same escaped text are the
    same text. *)
Theorem escape_injective (a b : string) :
  escape_markdown_v2 a = escape_markdown_v2 b -> a = b.
Proof.
  intros E.
  rewrite <- (Escape.escape_round_trip a), <- (Escape.escape_round_trip b).
  now rewrite E.
Qed.

(** X4.  Whatever the caption is, its plain form for the fallback holds no
    strike-through marker and no arrow glyph. *)
Theorem plain_caption_drops_markup (caption : string) :
  PyStr.contains STRIKE (plain_caption caption) = false /\
  PyStr.contains ARROW_GLYPH (plain_caption caption) = false.
Proof.
  unfold plain_caption. split.
  - apply (ReplaceFacts.replace_keeps_absent _ _ "-" ">" "~" "~"); [reflexivity|].
    apply (ReplaceFacts.delete_pair "~").
  - apply (ReplaceFacts.replace_removes _ _ "-" ">"). reflexivity.
Qed.


Section MoreCaptionProps.

Context {RT : PyRuntime}.



End MoreCaptionProps.

End MoreCaption.

(** ** Further properties of the catalog and of the handlers *)

Module MoreHandlers.

Import StrFacts Layout Cards Routes.

Section MoreHandlerProps.

Context {RT : PyRuntime}.

(** *** The catalog *)

Lemma in_firstn {A} (n : nat) : forall (l : list A) x,
  In x (firstn n l) -> In x l.
Proof.
  induction n as [|n IH]; intros [|y l] x H; try contradiction.
  destruct H as [->|H]; [now left | right; now apply IH].
Qed.

(** X7.  On a catalog that is a list of objects, the listing of a category
    has at most three records, all of that category and all from the catalog;
    it is the whole category when the category has at most three records, and
    it is empty only when the category is. *)
Theorem listing_is_capped_filter (category : string) (ds : list dict) :
  exists r,
    get_products_by_category (JList (map JDict ds)) category = Ok r /\
    List.length r <= 3 /\
    Forall (fun d => in_category category d = true /\ In d ds) r /\
    (List.length (filter (in_category category) ds) <= 3 ->
     r = filter (in_category category) ds) /\
    (r = [] <-> forall d, In d ds -> in_category category d = false).
Proof.
  rewrite Handlers.get_products_listing. eexists. split; [reflexivity|].
  set (f := filter (in_category category) ds).
  split; [apply firstn_le_length|]. split; [|split].
  - apply Forall_forall. intros d Hd. apply in_firstn in Hd.
    apply filter_In in Hd. tauto.
  - intros L. now apply firstn_all2.
  - split.
    + intros E d Hd. destruct (in_category category d) eqn:C; [|reflexivity].
      assert (I : In d f) by (apply filter_In; auto).
      destruct f as [|x f']; [contradiction | discriminate].
    + intros H. assert (E : f = []).
      { destruct f as [|x f'] eqn:Ef; [reflexivity|].
        assert (I : In x f) by (rewrite Ef; now left).
        apply filter_In in I as [I C]. rewrite (H x I) in C. discriminate. }
      now rewrite E.
Qed.

Lemma matching_poisoned (category : string) (pre : list dict) (v : value)
  (post : list value) x :
  as_dict v = Raise x ->
  matching category (map JDict pre ++ v :: post) = Raise x.
Proof.
  intros H. induction pre as [|d pre IH].
  - cbn [map app matching]. rewrite H. reflexivity.
  - cbn [map app matching as_dict rbind]. rewrite IH. reflexivity.
Qed.

(** X8.  One element that is not an object, anywhere in the catalog, makes
    the listing of every category raise [AttributeError], however many records
    of the category stand before it: the whole list is filtered before it is
    cut to three. *)
Theorem non_object_poisons_listing (category : string) (pre : list dict)
  (v : value) (post : list value) :
  (forall d, v <> JDict d) ->
  get_products_by_category (JList (map JDict pre ++ v :: post)) category
  = Raise (AttributeError ("'" ++ type_name v ++ "' object has no attribute 'get'")).
Proof.
  intros H. unfold get_products_by_category. cbn [py_iter rbind].
  rewrite (matching_poisoned category pre v post
             (AttributeError ("'" ++ type_name v ++ "' object has no attribute 'get'"))).
  - reflexivity.
  - destruct v; try reflexivity. exfalso. now apply (H d).
Qed.

Lemma py_len_raises (j : value) x :
  py_len j = Raise x -> exists m, x = TypeError m.
Proof.
  destruct j; cbn; intros H; try discriminate; injection H as <-;
    eexists; reflexivity.
Qed.

Lemma load_products_unsized e s j x :
  products_json e = Decoded j ->
  py_len j = Raise x ->
  load_products e s = (Raise x, s).
Proof.
  intros Hj Hn. destruct (py_len_raises j x Hn) as (m & ->).
  cbv [load_products bind ask attempt json_load raise logger lift ret].
  rewrite ?Hj; cbv beta iota; rewrite ?Hj; cbv beta iota. rewrite Hn.
  reflexivity.
Qed.

(** X9.  [load_products] returns a value exactly when the file decodes to
    that value and the value has a length (a list, an object or a string: a
    bare number, boolean or null makes the log line raise [TypeError]); and it
    never sends anything. *)
Theorem load_products_returns_iff e s j :
  (fst (load_products e s) = Ok j <->
   products_json e = Decoded j /\ exists n, py_len j = Ok n) /\
  outbox (snd (load_products e s)) = outbox s.
Proof.
  pose proof (Handlers.load_products_failure e s) as F.
  destruct (products_json e) as [|m|m|m|j0] eqn:Ej.
  1-4: rewrite F; cbn [fst snd logged outbox]; split; [|reflexivity];
       split; [discriminate | intros [H _]; discriminate].
  destruct (py_len j0) as [n|x] eqn:Ln.
  - rewrite (Handlers.load_products_decoded e s j0 n Ej Ln). cbn [fst snd logged outbox].
    split; [|reflexivity]. split.
    + intros [= ->]. split; [reflexivity | now exists n].
    + intros [[= ->] _]. reflexivity.
  - rewrite (load_products_unsized e s j0 x Ej Ln). cbn [fst snd].
    split; [|reflexivity]. split; [discriminate|].
    intros [[= ->] (n & Hn)]. congruence.
Qed.

(** X17.  Nothing checks that the catalog is a list: an empty object and an
    empty string pass for an empty catalog, and the user gets the
    empty-category notice as for an empty list. *)
Theorem empty_document_is_empty_catalog e category text j :
  In (category, text) CATEGORY_MAP ->
  products_json e = Decoded j ->
  j = JList [] \/ j = JDict [] \/ j = JStr "" ->
  outbox (snd (category_handler text e initial))
  = [(EMPTY_CATEGORY, match delivery e 0 with None => true | Some _ => false end)].
Proof.
  intros Hc Hj H. destruct (Handlers.selected_category_of _ _ Hc) as [Hs Hf].
  assert (L : exists n, py_len j = Ok n /\ get_products_by_category j category = Ok [])
    by (destruct H as [->|[->| ->]]; exists 0; split; reflexivity).
  destruct L as (n & Ln & G).
  unfold category_handler, bind at 1, attempt.
  rewrite (Handlers.load_products_decoded e initial j n Hj Ln).
  rewrite Hs, Hf. unfold bind, lift. rewrite G. unfold send.
  cbn [logged initial outbox List.length].
  destruct (delivery e 0); reflexivity.
Qed.

(** X18.  A catalog that is an object with at least one key makes every
    category selection raise [AttributeError] (the keys are taken for the
    records); the load is logged, nothing is sent. *)
Theorem object_catalog_raises e category text k v d :
  In (category, text) CATEGORY_MAP ->
  products_json e = Decoded (JDict ((k, v) :: d)) ->
  category_handler text e initial
  = (Raise (AttributeError "'str' object has no attribute 'get'"),
     logged initial INFO
       ("Loaded " ++ PyStr.str_int (Z.of_nat (S (List.length d)))
          ++ " products from JSON")).
Proof.
  intros Hc Hj. destruct (Handlers.selected_category_of _ _ Hc) as [Hs Hf].
  unfold category_handler, bind at 1, attempt.
  rewrite (Handlers.load_products_decoded e initial _ (S (List.length d)) Hj eq_refl).
  rewrite Hs, Hf. reflexivity.
Qed.

(** *** One product card, on any record *)

(** [send_product_message] step by step, whatever the record holds. *)
Lemma send_product_message_run p idx e s :
  send_product_message p idx e s
  = match path_of (get p "image" (JStr "")) with
    | Raise x => (Raise x, s)
    | Ok image =>
        let s1 := after_photo e image s in
        match _build_caption p idx with
        | Raise x => (Raise x, s1)
        | Ok caption =>
            match lookup "detail_url" p with
            | None => (Raise (KeyError "'detail_url'"), s1)
            | Some url =>
                let rich := rich_card (chosen_photo e image) caption url in
                match delivery e (List.length (outbox s)) with
                | None => (Ok tt, sent s1 rich true)
                | Some err =>
                    match lookup "id" p with
                    | None => (Raise (KeyError "'id'"), sent s1 rich false)
                    | Some id =>
                        send (plain_card caption url) e
                          (logged (sent s1 rich false) ERROR
                             ("Failed to send product " ++ py_str id ++ ": " ++ err))
                    end
                end
            end
        end
    end.
Proof.
  unfold send_product_message, getitem.
  destruct (path_of (get p "image" (JStr ""))) as [image|x]; [|reflexivity].
  unfold bind, lift, ask, attempt, get_placeholder_image, bind, ask, ret, logger,
    answer_photo, answer, send.
  unfold after_photo, chosen_photo, rich_card, plain_card.
  destruct (path_exists e image) eqn:E1;
    [|destruct (path_exists e PLACEHOLDER_PATH) eqn:E2];
    cbv beta iota zeta;
    (destruct (_build_caption p idx) as [caption|x]; [|reflexivity]);
    (destruct (lookup "detail_url" p) as [url|]; [|reflexivity]);
    cbn [logged outbox];
    (destruct (delivery e (List.length (outbox s))); [|reflexivity]);
    destruct (lookup "id" p); reflexivity.
Qed.

Lemma chosen_photo_exists e image f :
  chosen_photo e image = Some f -> path_exists e f = true.
Proof.
  unfold chosen_photo.
  destruct (path_exists e image) eqn:E1;
    [|destruct (path_exists e PLACEHOLDER_PATH) eqn:E2];
    intros H; try discriminate; injection H as <-; assumption.
Qed.

Lemma rich_card_shape e image caption url :
  rich_shape e (rich_card (chosen_photo e image) caption url).
Proof.
  split; [reflexivity|]. split; [now exists url|].
  cbn [rich_card photo]. apply chosen_photo_exists.
Qed.

(** The ways [send_product_message] can go, on any record. *)
Lemma product_message_cases p idx e s :
  let run := send_product_message p idx e s in
  exists new,
    outbox (snd run) = (outbox s ++ new)%list /\
    ((new = [] /\ exists x, fst run = Raise x) \/
     (exists rich,
        new = [(rich, true)] /\ fst run = Ok tt /\ rich_shape e rich) \/
     (exists rich,
        new = [(rich, false)] /\ fst run = Raise (KeyError "'id'") /\
        rich_shape e rich /\ lookup "id" p = None) \/
     (exists rich b,
        new = [(rich, false); (plain_of rich, b)] /\ rich_shape e rich /\
        (b = true /\ fst run = Ok tt \/ b = false /\ exists x, fst run = Raise x))).
Proof.
  cbv zeta. rewrite send_product_message_run.
  destruct (path_of (get p "image" (JStr ""))) as [image|x].
  2:{ exists []. rewrite app_nil_r. split; [reflexivity|].
      left. split; [reflexivity | eexists; reflexivity]. }
  cbv zeta.
  destruct (_build_caption p idx) as [caption|x].
  2:{ exists []. rewrite app_nil_r. cbn [fst snd].
      rewrite Handlers.outbox_after_photo. split; [reflexivity|].
      left. split; [reflexivity | eexists; reflexivity]. }
  destruct (lookup "detail_url" p) as [url|].
  2:{ exists []. rewrite app_nil_r. cbn [fst snd].
      rewrite Handlers.outbox_after_photo. split; [reflexivity|].
      left. split; [reflexivity | eexists; reflexivity]. }
  pose proof (rich_card_shape e image caption url) as R.
  destruct (delivery e (List.length (outbox s))) as [err|].
  2:{ eexists. cbn [fst snd sent outbox]. rewrite Handlers.outbox_after_photo.
      split; [reflexivity|]. right. left.
      eexists. split; [reflexivity|]. split; [reflexivity | exact R]. }
  destruct (lookup "id" p) as [id|] eqn:Hid.
  2:{ eexists. cbn [fst snd sent outbox]. rewrite Handlers.outbox_after_photo.
      split; [reflexivity|]. right. right. left.
      eexists. split; [reflexivity|]. split; [reflexivity|]. split; [exact R | reflexivity]. }
  unfold send. cbn [logged sent outbox].
  destruct (delivery e _) as [err2|]; cbn [fst snd sent outbox logged];
    rewrite Handlers.outbox_after_photo, <- app_assoc.
  - exists [(rich_card (chosen_photo e image) caption url, false);
            (plain_card caption url, false)].
    split; [reflexivity|]. right. right. right.
    exists (rich_card (chosen_photo e image) caption url), false.
    split; [reflexivity|]. split; [exact R|].
    right. split; [reflexivity | eexists; reflexivity].
  - exists [(rich_card (chosen_photo e image) caption url, false);
            (plain_card caption url, true)].
    split; [reflexivity|]. right. right. right.
    exists (rich_card (chosen_photo e image) caption url), true.
    split; [reflexivity|]. split; [exact R|].
    left. split; reflexivity.
Qed.

(** X10.  Whatever the record holds, [send_product_message] sends nothing and
    raises, or sends one rich card, or sends a rich card that fails and then
    at most one plain card with the same button; the rich card is in
    MarkdownV2 and its photo, if it has one, is on disk; the plain card has no
    photo and no parse mode; and the function returns exactly when its last
    send went through. *)
Theorem product_message_shape p idx e s :
  let run := send_product_message p idx e s in
  exists new,
    outbox (snd run) = (outbox s ++ new)%list /\
    ((new = [] /\ exists x, fst run = Raise x) \/
     (exists rich,
        new = [(rich, true)] /\ fst run = Ok tt /\ rich_shape e rich) \/
     (exists rich,
        new = [(rich, false)] /\ fst run = Raise (KeyError "'id'") /\
        rich_shape e rich /\ lookup "id" p = None) \/
     (exists rich b,
        new = [(rich, false); (plain_of rich, b)] /\ rich_shape e rich /\
        (b = true /\ fst run = Ok tt \/ b = false /\ exists x, fst run = Raise x))).
Proof. exact (product_message_cases p idx e s). Qed.

(** X11.  A record that lacks its title, its new price or its detail url gets
    no card: the function raises before anything is sent. *)
Theorem missing_field_sends_nothing p idx e s :
  lookup "title" p = None \/ lookup "new_price" p = None
  \/ lookup "detail_url" p = None ->
  outbox (snd (send_product_message p idx e s)) = outbox s /\
  exists x, fst (send_product_message p idx e s) = Raise x.
Proof.
  intros H. rewrite send_product_message_run.
  destruct (path_of (get p "image" (JStr ""))) as [image|x];
    [|split; [reflexivity | eexists; reflexivity]].
  cbv zeta.
  assert (C : (exists x, _build_caption p idx = Raise x) \/
              lookup "detail_url" p = None).
  { destruct H as [H|[H|H]].
    - left. unfold _build_caption, getitem. rewrite H. eexists; reflexivity.
    - left. unfold _build_caption, getitem. rewrite H.
      destruct (lookup "title" p); eexists; reflexivity.
    - now right. }
  destruct C as [(x & ->)|C].
  - cbn [fst snd]. rewrite Handlers.outbox_after_photo.
    split; [reflexivity | eexists; reflexivity].
  - rewrite C. destruct (_build_caption p idx);
      cbn [fst snd]; rewrite Handlers.outbox_after_photo;
      (split; [reflexivity | eexists; reflexivity]).
Qed.


(** *** How much one event sends *)

Lemma grows_silent {A} (m : M A) : silent m -> grows 0 m.
Proof.
  intros H e s. exists []. rewrite app_nil_r. split; [apply H | apply Nat.le_refl].
Qed.

Lemma grows_le {A} (n k : nat) (m : M A) : grows n m -> n <= k -> grows k m.
Proof.
  intros H L e s. destruct (H e s) as (new & O & B). exists new. split; [exact O | lia].
Qed.

Lemma grows_send x : grows 1 (send x).
Proof.
  intros e s. unfold send.
  destruct (delivery e (List.length (outbox s))); eexists; split;
    try reflexivity; cbn; lia.
Qed.

Lemma grows_bind {A B} (a b : nat) (m : M A) (k : A -> M B) :
  grows a m -> (forall x, grows b (k x)) -> grows (a + b) (bind m k).
Proof.
  intros Hm Hk e s. unfold bind.
  destruct (Hm e s) as (n1 & O1 & B1).
  destruct (m e s) as [[x|x] s1]; cbn [snd] in O1.
  - destruct (Hk x e s1) as (n2 & O2 & B2).
    exists (n1 ++ n2)%list. rewrite O2, O1, app_assoc, length_app.
    split; [reflexivity | lia].
  - exists n1. split; [exact O1 | lia].
Qed.

Lemma grows_lift_bind {A B} (n : nat) (r : result A) (k : A -> M B) :
  (forall a, r = Ok a -> grows n (k a)) -> grows n (bind (lift r) k).
Proof.
  intros H e s. unfold bind, lift. destruct r as [a|x].
  - apply (H a eq_refl).
  - exists []. rewrite app_nil_r. split; [reflexivity | cbn; lia].
Qed.

Lemma grows_attempt {A} (n : nat) (m : M A) : grows n m -> grows n (attempt m).
Proof.
  intros H e s. unfold attempt. destruct (H e s) as (new & O & B).
  destruct (m e s). exists new. now split.
Qed.

Lemma load_products_silent : silent load_products.
Proof.
  intros e s.
  destruct (Handlers.load_products_emits (fun _ => False) e s) as (new & O & F).
  destruct new as [|x new]; [now rewrite app_nil_r in O|].
  inversion F as [|? ? Fx _]. contradiction.
Qed.

Lemma product_message_grows p idx : grows 2 (send_product_message p idx).
Proof.
  intros e s.
  destruct (product_message_cases p idx e s) as (new & O & C).
  exists new. split; [exact O|].
  destruct C as [[-> _]|[(r & -> & _)|[(r & -> & _)|(r & b & -> & _)]]]; cbn; lia.
Qed.

Lemma send_each_grows ps : forall idx, grows (2 * List.length ps) (send_each idx ps).
Proof.
  induction ps as [|p ps IH]; intros idx; cbn [send_each].
  - apply grows_silent. intros e s. reflexivity.
  - apply grows_le with (n := 2 + 2 * List.length ps).
    + apply grows_bind; [apply product_message_grows | intros _; apply IH].
    + cbn [List.length]. lia.
Qed.

Lemma listing_length products category l :
  get_products_by_category products category = Ok l -> List.length l <= 3.
Proof.
  unfold get_products_by_category.
  destruct (py_iter products) as [ps|x]; [|discriminate]. cbn [rbind].
  destruct (matching category ps) as [sel|x]; [|discriminate]. cbn [rbind].
  intros [= <-]. exact (firstn_le_length 3 sel).
Qed.

Lemma category_handler_grows text : grows 8 (category_handler text).
Proof.
  unfold category_handler.
  apply (grows_bind 0 8).
  { apply grows_attempt, grows_silent, load_products_silent. }
  intros [products|x].
  - destruct (falsy (selected_category text)).
    + apply grows_le with (n := 1); [apply grows_send | lia].
    + apply grows_lift_bind. intros l Hl. apply listing_length in Hl.
      destruct l as [|p l]; [apply grows_le with (n := 1); [apply grows_send | lia]|].
      apply grows_le with (n := 1 + (2 * List.length (p :: l) + 1)).
      * apply grows_bind; [apply grows_send|]. intros _.
        apply grows_bind; [apply send_each_grows|]. intros _. apply grows_send.
      * lia.
  - destruct (is_FileNotFoundError x || is_ValueError x)%bool.
    + apply (grows_bind 0 8).
      * apply grows_silent. intros e s. reflexivity.
      * intros _. apply grows_le with (n := 1); [apply grows_send | lia].
    + apply grows_le with (n := 0); [|lia]. apply grows_silent. intros e s. reflexivity.
Qed.

Lemma start_handler_grows : grows 1 start_handler.
Proof.
  unfold start_handler, get_greeting, answer.
  apply (grows_bind 0 1); [|intros g; apply grows_send].
  apply (grows_bind 0 0); [apply grows_silent; intros e s; reflexivity|].
  intros e0. apply grows_silent. intros e s.
  destruct ((5 <=? hour e0)%nat && (hour e0 <? 12)%nat)%bool; [reflexivity|].
  destruct ((12 <=? hour e0)%nat && (hour e0 <? 18)%nat)%bool; reflexivity.
Qed.

Lemma then_true_grows (n : nat) (m : M unit) :
  grows n m -> n <= 8 -> grows 8 (m ;; ret true).
Proof.
  intros H L. apply grows_le with (n := n + 0); [|lia].
  apply grows_bind; [exact H|]. intros _. apply grows_silent. intros e s. reflexivity.
Qed.

(** X13.  Whatever the text, the catalog and the transport are, one event
    makes the bot attempt at most eight sends. *)
Theorem event_sends_at_most_eight text : grows 8 (router text).
Proof.
  assert (T : forall n (m : M unit), n <= 8 -> grows n m -> grows 8 (m ;; ret true)).
  { intros n m L H. now apply then_true_grows with (n := n). }
  unfold router.
  destruct (CommandStart text); [apply (T 1); [lia | apply start_handler_grows]|].
  destruct (String.eqb text AMAZON_LABEL);
    [apply (T 1); [lia | unfold amazon_handler, answer; apply grows_send]|].
  destruct (String.eqb text BACK_LABEL);
    [apply (T 1); [lia | apply start_handler_grows]|].
  destruct (existsb (String.eqb text) (values CATEGORY_MAP));
    [apply (T 8); [lia | apply category_handler_grows]|].
  destruct (String.eqb text SHOW_MORE_LABEL);
    [apply (T 1); [lia | unfold show_more_handler, amazon_handler, answer; apply grows_send]|].
  destruct (existsb (String.eqb text) OTHER_PLATFORM_LABELS);
    [apply (T 1); [lia | unfold other_platforms_handler, answer; apply grows_send]|].
  apply grows_le with (n := 0); [|lia]. apply grows_silent. intros e s. reflexivity.
Qed.

(** *** A listing that goes through *)




(** *** What the user gets back *)

Lemma answers_send x : answers (send x).
Proof.
  intros e s a s' H. unfold send in H.
  destruct (delivery e (List.length (outbox s))); [discriminate|].
  injection H as _ <-. exists [], x. reflexivity.
Qed.

Lemma answers_raise {A} x : answers (@raise _ A x).
Proof. intros e s a s' H. discriminate. Qed.

(** A computation that ends with one that answers, answers. *)
Lemma answers_bind {A B} (n : nat) (m : M A) (k : A -> M B) :
  grows n m -> (forall x, answers (k x)) -> answers (bind m k).
Proof.
  intros Hm Hk e s b s' H. unfold bind in H.
  destruct (Hm e s) as (n1 & O1 & _).
  destruct (m e s) as [[x|x] s1]; [|discriminate]. cbn [snd] in O1.
  destruct (Hk x e s1 b s' H) as (pre & y & O2).
  exists (n1 ++ pre)%list, y. rewrite O2, O1, <- !app_assoc. reflexivity.
Qed.

(** A computation that answers and then only computes, answers. *)
Lemma answers_then {A B} (m : M A) (k : A -> M B) :
  answers m -> (forall x, silent (k x)) -> answers (bind m k).
Proof.
  intros Hm Hk e s b s' H. unfold bind in H.
  destruct (m e s) as [[x|x] s1] eqn:E; [|discriminate].
  destruct (Hm e s x s1 E) as (pre & y & O).
  exists pre, y. rewrite <- O. pose proof (Hk x e s1) as S.
  rewrite H in S. exact S.
Qed.

Lemma category_handler_answers text : answers (category_handler text).
Proof.
  unfold category_handler.
  apply (answers_bind 0).
  { apply grows_attempt, grows_silent, load_products_silent. }
  intros [products|x].
  - destruct (falsy (selected_category text)); [apply answers_send|].
    apply (answers_bind 0).
    { apply grows_silent. intros e s. reflexivity. }
    intros [|p l]; [apply answers_send|].
    apply (answers_bind 1); [apply grows_send|]. intros _.
    apply (answers_bind (2 * List.length (p :: l))); [apply send_each_grows|].
    intros _. apply answers_send.
  - destruct (is_FileNotFoundError x || is_ValueError x)%bool.
    + apply (answers_bind 0); [apply grows_silent; intros e s; reflexivity|].
      intros _. apply answers_send.
    + apply answers_raise.
Qed.

Lemma start_handler_answers : answers start_handler.
Proof.
  unfold start_handler, answer.
  apply (answers_bind 0); [|intros g; apply answers_send].
  unfold get_greeting.
  apply (grows_bind 0 0); [apply grows_silent; intros e s; reflexivity|].
  intros e0. apply grows_silent. intros e s.
  destruct ((5 <=? hour e0)%nat && (hour e0 <? 12)%nat)%bool; [reflexivity|].
  destruct ((12 <=? hour e0)%nat && (hour e0 <? 18)%nat)%bool; reflexivity.
Qed.

Lemma handled e s (m : M unit) a s' :
  answers m ->
  (m ;; ret true) e s = (Ok a, s') ->
  a = true /\ exists pre x, outbox s' = (outbox s ++ pre ++ [(x, true)])%list.
Proof.
  intros Hm H. split.
  - unfold bind, ret in H. destruct (m e s) as [[u|x] s1]; [|discriminate].
    now injection H as <- _.
  - apply (answers_then m (fun _ => ret true) Hm) in H; [exact H|].
    intros x e0 s0. reflexivity.
Qed.

(** X15.  When the router returns, either a handler ran and the last thing it
    did was a send that went through, so the user has a reply, or no filter
    accepted the text and nothing at all was done. *)
Theorem router_replies_or_ignores text e s a s' :
  router text e s = (Ok a, s') ->
  a = true /\ (exists pre x, outbox s' = (outbox s ++ pre ++ [(x, true)])%list)
  \/ a = false /\ s' = s.
Proof.
  unfold router.
  destruct (CommandStart text);
    [intros H; left; apply (handled e s _ a s' start_handler_answers H)|].
  destruct (String.eqb text AMAZON_LABEL);
    [intros H; left; apply (handled e s _ a s' (answers_send _) H)|].
  destruct (String.eqb text BACK_LABEL);
    [intros H; left; apply (handled e s _ a s' start_handler_answers H)|].
  destruct (existsb (String.eqb text) (values CATEGORY_MAP));
    [intros H; left; apply (handled e s _ a s' (category_handler_answers text) H)|].
  destruct (String.eqb text SHOW_MORE_LABEL);
    [intros H; left; apply (handled e s _ a s' (answers_send _) H)|].
  destruct (existsb (String.eqb text) OTHER_PLATFORM_LABELS);
    [intros H; left; apply (handled e s _ a s' (answers_send _) H)|].
  intros [= <- <-]. right. split; reflexivity.
Qed.

(** *** Buttons *)

Lemma product_message_emits (P : outbound -> Prop) p idx :
  (forall m rows, reply_markup m = Some (InlineKeyboardMarkup rows) -> P m) ->
  emits P (send_product_message p idx).
Proof.
  intros HP e s.
  destruct (product_message_cases p idx e s) as (new & O & C).
  exists new. split; [exact O|].
  assert (R : forall rich, rich_shape e rich -> P rich).
  { intros rich (_ & (url & Hu) & _). now apply (HP rich _ Hu). }
  destruct C as [[-> _]|[(r & -> & _ & S)|[(r & -> & _ & S & _)|(r & b & -> & S & _)]]];
    repeat constructor; cbn [fst]; try (now apply R).
  destruct S as (_ & (url & Hu) & _).
  eapply HP. cbn [plain_of reply_markup]. exact Hu.
Qed.

Lemma send_each_emits_cards (P : outbound -> Prop) ps :
  (forall m rows, reply_markup m = Some (InlineKeyboardMarkup rows) -> P m) ->
  forall idx, emits P (send_each idx ps).
Proof.
  intros HP. induction ps as [|p ps IH]; intros idx; cbn [send_each].
  - apply Handlers.emits_ret.
  - apply Handlers.emits_bind; [now apply product_message_emits | intros _; apply IH].
Qed.

Ltac routed_label := unfold routed; cbn; tauto.

Ltac routed_keyboard :=
  unfold buttons_routed; cbn;
  repeat (constructor; try routed_label).

Lemma category_handler_buttons text : emits buttons_routed (category_handler text).
Proof.
  unfold category_handler.
  apply Handlers.emits_bind;
    [apply Handlers.emits_attempt, Handlers.load_products_emits|].
  intros [products|x].
  - destruct (falsy (selected_category text)).
    + apply Handlers.emits_send. exact I.
    + apply Handlers.emits_bind; [apply Handlers.emits_lift|]. intros [|p ps].
      * apply Handlers.emits_send. routed_keyboard.
      * apply Handlers.emits_bind; [apply Handlers.emits_send; exact I|]. intros _.
        apply Handlers.emits_bind.
        { apply send_each_emits_cards. intros m rows H.
          unfold buttons_routed. now rewrite H. }
        intros _. apply Handlers.emits_send. routed_keyboard.
  - destruct (is_FileNotFoundError x || is_ValueError x)%bool.
    + apply Handlers.emits_bind; [apply Handlers.emits_logger|]. intros _.
      apply Handlers.emits_send. exact I.
    + apply Handlers.emits_raise.
Qed.

Lemma start_handler_buttons : emits buttons_routed start_handler.
Proof.
  unfold start_handler, answer.
  apply Handlers.emits_bind; [|intros g; apply Handlers.emits_send; routed_keyboard].
  apply Handlers.emits_silent. intros e s. unfold get_greeting, bind, ask.
  destruct ((5 <=? hour e)%nat && (hour e <? 12)%nat)%bool; [reflexivity|].
  destruct ((12 <=? hour e)%nat && (hour e <? 18)%nat)%bool; reflexivity.
Qed.

Lemma then_true_emits P (m : M unit) : emits P m -> emits P (m ;; ret true).
Proof.
  intros H. apply Handlers.emits_bind; [exact H | intros _; apply Handlers.emits_ret].
Qed.

Lemma then_true_handled (m : M unit) e s : fst ((m ;; ret true) e s) <> Ok false.
Proof.
  unfold bind, ret. destruct (m e s) as [[u|x] s1]; cbn; discriminate.
Qed.

(** X16.  No button leads nowhere: every label on every reply keyboard the
    bot sends, whatever the text, the catalog and the transport are, is a
    label the router has a filter for; and a text that is such a label is
    never left unhandled. *)
Theorem no_dead_buttons text :
  emits buttons_routed (router text) /\
  (routed text -> forall e s, fst (router text e s) <> Ok false).
Proof.
  split.
  - unfold router.
    destruct (CommandStart text); [apply then_true_emits, start_handler_buttons|].
    destruct (String.eqb text AMAZON_LABEL);
      [apply then_true_emits; unfold amazon_handler, answer;
       apply Handlers.emits_send; routed_keyboard|].
    destruct (String.eqb text BACK_LABEL);
      [apply then_true_emits, start_handler_buttons|].
    destruct (existsb (String.eqb text) (values CATEGORY_MAP));
      [apply then_true_emits, category_handler_buttons|].
    destruct (String.eqb text SHOW_MORE_LABEL);
      [apply then_true_emits; unfold show_more_handler, amazon_handler, answer;
       apply Handlers.emits_send; routed_keyboard|].
    destruct (existsb (String.eqb text) OTHER_PLATFORM_LABELS);
      [apply then_true_emits; unfold other_platforms_handler, answer;
       apply Handlers.emits_send; routed_keyboard|].
    apply Handlers.emits_ret.
  - intros R e s. unfold router.
    destruct (CommandStart text); [apply then_true_handled|].
    unfold routed in R. cbn in R.
    decompose [or] R; try contradiction; subst text; apply then_true_handled.
Qed.

End MoreHandlerProps.

End MoreHandlers.

(** ** The further properties at work on the sample data *)

Module MoreRuns.

Import Samples MoreSamples Layout Cards Routes MoreCaption MoreHandlers.

#[local] Existing Instance runtime.

Lemma escape_injective_example : "a.b" = "a.b".
Proof. apply (escape_injective "a.b" "a.b"). reflexivity. Defined.


Lemma non_object_example :
  get_products_by_category (RT := runtime)
    (JList (map JDict [cable] ++ JNum (Int 7) :: [])) "mobiles"
  = Raise (AttributeError
             ("'" ++ type_name (RT := runtime) (JNum (Int 7))
                ++ "' object has no attribute 'get'")).
Proof.
  apply (non_object_poisons_listing (RT := runtime) "mobiles" [cable] (JNum (Int 7)) []).
  intros d. discriminate.
Defined.

Lemma missing_field_example :
  outbox (snd (send_product_message (RT := runtime) untitled 1 (world catalog reliable) initial))
  = outbox initial /\
  exists x,
    fst (send_product_message (RT := runtime) untitled 1 (world catalog reliable) initial) = Raise x.
Proof.
  apply (missing_field_sends_nothing (RT := runtime) untitled 1 (world catalog reliable) initial).
  left. reflexivity.
Defined.



Lemma router_replies_example :
  let e := world catalog reliable in
  true = true /\
  (exists pre x,
     outbox (snd (router MOBILES e initial))
     = (outbox initial ++ pre ++ [(x, true)])%list)
  \/ true = false /\ snd (router MOBILES e initial) = initial.
Proof.
  apply (router_replies_or_ignores (RT := runtime) MOBILES (world catalog reliable) initial true
           (snd (router MOBILES (world catalog reliable) initial))).
  reflexivity.
Defined.

Lemma empty_document_example :
  let e := world empty_object reliable in
  outbox (snd (category_handler MOBILES e initial))
  = [(EMPTY_CATEGORY, match delivery e 0 with None => true | Some _ => false end)].
Proof.
  apply (empty_document_is_empty_catalog (RT := runtime) (world empty_object reliable) "mobiles"
           MOBILES (JDict [])).
  - simpl. auto.
  - reflexivity.
  - right. left. reflexivity.
Defined.

Lemma object_catalog_example :
  category_handler MOBILES (world not_a_list reliable) initial
  = (Raise (AttributeError "'str' object has no attribute 'get'"),
     logged initial INFO
       ("Loaded " ++ PyStr.str_int (Z.of_nat (S (List.length (A := string * value) [])))
          ++ " products from JSON")).
Proof.
  apply (object_catalog_raises (RT := runtime) (world not_a_list reliable) "mobiles" MOBILES
           "products" (JList []) []).
  - simpl. auto.
  - reflexivity.
Defined.

(** Eight sends are reached: three records whose rich cards fail and whose
    plain cards go through. *)
Example eight_sends :
  let net := fun k => if ((k =? 1) || (k =? 3) || (k =? 5))%nat%bool
                      then Some "Bad Request" else None in
  let e := world (@Decoded runtime (JList (map JDict [cable; phone; overpriced]))) net in
  List.length (outbox (snd (router MOBILES e initial))) = 8 /\
  fst (router MOBILES e initial) = Ok true.
Proof. split; reflexivity. Qed.

End MoreRuns.
